(** * CSV test data generator (index.js): value generation and column configuration

    A shallow embedding of the generation core of [index.js]: the random
    helpers ([getRandomNumber], [getRandomString], [getRandomStringWithPrefix],
    [getRandomFromList]), the value-pool extractor
    ([getUniqueValuesFromColumn]), the per-column builder ([configureColumn])
    and the row loop of [main].

    Numbers.  A JavaScript number is modelled as an exact rational, NaN, or a
    signed infinity: IEEE-754 rounding and the sign of zero are not modelled.
    The exact operations are those of the code on the integers of
    [-2^53, 2^53] as long as the result stays there ([safe_integer]); the
    statements on sums and products are made on that range.
    [Math.random] is a stream of draws that the code consumes one at a time.

    Records.  A row is a plain object: its own properties, with the
    assignment [record[key] = v] of the language, which stores nothing under
    the key [__proto__].

    Prompts.  [inquirer.prompt] is the user: the answers are an input of
    [configureColumn]; the [filter] functions that the source attaches to a
    prompt are part of the code and are applied by the model. *)

From Stdlib Require Import QArith Qcanon Qround ZArith Ascii String List Lia Lqa.
From stdpp Require Import base decidable option list gmap strings pretty.

Open Scope Z_scope.

(** ** Numbers *)

Inductive number :=
  | NaN
  | Inf (negative : bool)
  | Num (q : Qc).

Definition of_Z (z : Z) : Qc := Q2Qc (inject_Z z).
Definition of_nat (n : nat) : Qc := of_Z (Z.of_nat n).

#[global] Instance Qc_eq_decision : EqDecision Qc := Qc_eq_dec.
#[global] Instance number_eq_decision : EqDecision number.
Proof. solve_decision. Defined.

Definition Qc_is_zero (q : Qc) : bool := bool_decide (q = of_Z 0).
Definition Qc_is_neg (q : Qc) : bool := bool_decide (q < of_Z 0)%Qc.

(** [x + y] on numbers. *)
Definition num_add (x y : number) : number :=
  match x, y with
  | NaN, _ | _, NaN => NaN
  | Inf a, Inf b => if bool_decide (a = b) then Inf a else NaN
  | Inf a, Num _ | Num _, Inf a => Inf a
  | Num p, Num q => Num (p + q)%Qc
  end.

Definition num_neg (x : number) : number :=
  match x with
  | NaN => NaN
  | Inf a => Inf (negb a)
  | Num p => Num (- p)%Qc
  end.

(** [x - y] on numbers. *)
Definition num_sub (x y : number) : number := num_add x (num_neg y).

(** [x * y] on numbers. *)
Definition num_mul (x y : number) : number :=
  match x, y with
  | NaN, _ | _, NaN => NaN
  | Inf a, Inf b => Inf (xorb a b)
  | Inf a, Num q | Num q, Inf a =>
      if Qc_is_zero q then NaN else Inf (xorb a (Qc_is_neg q))
  | Num p, Num q => Num (p * q)%Qc
  end.

(** [Math.floor]. *)
Definition Math_floor (x : number) : number :=
  match x with
  | Num q => Num (of_Z (Qfloor q))
  | _ => x
  end.

(** The global [isNaN] on a number. *)
Definition isNaN (x : number) : bool :=
  match x with NaN => true | _ => false end.

(** How often the body of [for (let i = 0; i < bound; i++)] runs: the number
    of naturals below [bound]; [None] when the loop never ends. *)
Definition for_count (bound : number) : option nat :=
  match bound with
  | NaN => Some 0%nat
  | Inf true => Some 0%nat
  | Inf false => None
  | Num q => Some (Z.to_nat (Qceiling q))
  end.

(** ** Values, records and strings *)

(** The values that reach the generator: cells of the parsed CSV are strings,
    a missing cell reads as [undefined], generated cells are numbers or
    strings. *)
Inductive value :=
  | VUndefined
  | VNull
  | VNum (n : number)
  | VStr (s : string).

#[global] Instance value_eq_decision : EqDecision value.
Proof. solve_decision. Defined.

(** A record is a plain JavaScript object used as a map from column name to
    value: [own] holds its own properties.  An assignment [record[key] = v]
    creates or overwrites the own property [key], except for the key
    [__proto__]: that assignment calls the inherited setter, which, for the
    values generated here, stores nothing.  [record[header]] of an absent key
    is [undefined]. *)
Record Row := { own : gmap string value }.

#[global] Instance Row_empty : Empty Row := {| own := ∅ |}.

#[global] Instance Row_lookup : Lookup string value Row :=
  fun key record => own record !! key.

(** [record[key] = v] *)
#[global] Instance Row_insert : Insert string value Row :=
  fun key v record =>
    if bool_decide (key = "__proto__") then record
    else {| own := <[key := v]> (own record) |}.

(** The object with the one property [key] assigned. *)
#[global] Instance Row_singleton : SingletonM string value Row :=
  fun key v => <[key := v]> (∅ : Row).

(** [Object.keys(record)] as a set. *)
#[global] Instance Row_dom : Dom Row (gset string) :=
  fun record => dom (own record).

Definition get_field (r : Row) (header : string) : value :=
  default VUndefined (r !! header).

(** [s.charAt(pos)]: the position is converted with ToIntegerOrInfinity (NaN
    is 0, fractions are truncated towards zero); out of range gives the empty
    string. *)
Definition to_integer (x : number) : option Z :=
  match x with
  | NaN => Some 0
  | Inf _ => None
  | Num q => Some (if Qc_is_neg q then - Qfloor (- q) else Qfloor q)
  end.

Definition charAt (s : string) (pos : number) : string :=
  match to_integer pos with
  | Some z =>
      if bool_decide (0 <= z)
      then match String.get (Z.to_nat z) s with
           | Some c => String c EmptyString
           | None => EmptyString
           end
      else EmptyString
  | None => EmptyString
  end.

(** [list[idx]]: an array is indexed by the non-negative integers below its
    length; any other key reads as [undefined]. *)
Definition array_get (l : list value) (idx : number) : value :=
  match idx with
  | Num q =>
      if bool_decide (Qden q = 1%positive /\ 0 <= Qnum q)
      then nth (Z.to_nat (Qnum q)) l VUndefined
      else VUndefined
  | _ => VUndefined
  end.

(** [i % n] for a row counter [i] and an array length [n]. *)
Definition js_rem (i n : nat) : number :=
  match n with
  | O => NaN
  | S _ => Num (of_nat (i mod n))
  end.

(** ** The random source and the effects of generation *)

(** [Math.random]: a fixed stream of draws and the position of the next one. *)
Record Rng := { draws : nat -> Qc; pos : nat }.

(** Every draw lies in [0, 1). *)
Definition valid_rng (s : Rng) : Prop :=
  forall n, (of_Z 0 <= draws s n)%Qc /\ (draws s n < of_Z 1)%Qc.

Inductive exn :=
  | TypeError (msg : string).

(** What running a piece of generation code leads to: a result and the
    advanced random source, an exception, or a loop that never ends. *)
Inductive outcome (A : Type) :=
  | Ok (a : A) (s : Rng)
  | Throw (e : exn)
  | Diverge.
Arguments Ok {A} a s.
Arguments Throw {A} e.
Arguments Diverge {A}.

Definition M (A : Type) : Type := Rng -> outcome A.

#[global] Instance M_ret : MRet M := fun A a s => Ok a s.
#[global] Instance M_bind : MBind M := fun A B f m s =>
  match m s with
  | Ok a s' => f a s'
  | Throw e => Throw e
  | Diverge => Diverge
  end.

Definition throw {A} (e : exn) : M A := fun _ => Throw e.
Definition diverge {A} : M A := fun _ => Diverge.

Definition Math_random : M number := fun s =>
  Ok (Num (draws s (pos s))) {| draws := draws s; pos := S (pos s) |}.

(** ** The random helpers (index.js, lines 8-30) *)

Definition getRandomNumber (min max : number) : M number :=
  r ← Math_random;
  mret (num_add (Math_floor (num_mul r (num_add (num_sub max min) (Num (of_Z 1))))) min).

Definition chars : string :=
  "ABCDEFGHIJKLMNOPQRSTUVWXYZabcdefghijklmnopqrstuvwxyz0123456789".

(** The body of the [for] loop of [getRandomString], run [n] times. *)
Fixpoint getRandomString_loop (n : nat) (result : string) : M string :=
  match n with
  | O => mret result
  | S n' =>
      r ← Math_random;
      getRandomString_loop n'
        (result +:+ charAt chars (Math_floor (num_mul r (Num (of_nat (String.length chars))))))
  end.

Definition getRandomString (length : number) : M string :=
  match for_count length with
  | Some n => getRandomString_loop n EmptyString
  | None => diverge
  end.

Definition getRandomStringWithPrefix (prefix : string) (length : number) : M string :=
  s ← getRandomString length;
  mret (prefix +:+ s).

(** [list] is [None] when the property is absent: reading [.length] of
    [undefined] throws. *)
Definition getRandomFromList (list : option (list value)) : M value :=
  match list with
  | None => throw (TypeError "Cannot read properties of undefined (reading 'length')")
  | Some l =>
      r ← Math_random;
      mret (array_get l (Math_floor (num_mul r (Num (of_nat (length l))))))
  end.

(** ** Built-ins used on strings: [Number], [split(',')], [trim] *)

(** White space and line terminators of the ASCII range. *)
Definition is_space (c : ascii) : bool :=
  bool_decide (nat_of_ascii c ∈ [9; 10; 11; 12; 13; 32]%nat).

Fixpoint trim_start (s : string) : string :=
  match s with
  | String c s' => if is_space c then trim_start s' else s
  | EmptyString => EmptyString
  end.

Fixpoint trim_end (s : string) : string :=
  match s with
  | String c s' =>
      match trim_end s' with
      | EmptyString => if is_space c then EmptyString else String c EmptyString
      | t => String c t
      end
  | EmptyString => EmptyString
  end.

Definition trim (s : string) : string := trim_end (trim_start s).

(** [s.split(sep)] for a one-character separator. *)
Fixpoint split (sep : ascii) (s : string) : list string :=
  match s with
  | EmptyString => [EmptyString]
  | String c s' =>
      if bool_decide (c = sep) then EmptyString :: split sep s'
      else match split sep s' with
           | h :: t => String c h :: t
           | [] => [String c EmptyString]
           end
  end.

Definition digit_of (base : Z) (c : ascii) : option Z :=
  let n := Z.of_nat (nat_of_ascii c) in
  let d := if bool_decide (48 <= n <= 57) then Some (n - 48)
           else if bool_decide (97 <= n <= 102) then Some (n - 87)
           else if bool_decide (65 <= n <= 70) then Some (n - 55)
           else None in
  match d with
  | Some v => if bool_decide (v < base) then Some v else None
  | None => None
  end.

(** Reads the longest run of digits: the accumulated value, the number of
    digits read and the rest of the string. *)
Fixpoint digits (base : Z) (s : string) (acc : Z) (n : nat) : Z * nat * string :=
  match s with
  | String c s' =>
      match digit_of base c with
      | Some d => digits base s' (acc * base + d) (S n)
      | None => (acc, n, s)
      end
  | EmptyString => (acc, n, s)
  end.

Definition pow10 (k : Z) : Qc :=
  if bool_decide (0 <= k) then of_Z (10 ^ k) else Q2Qc (1 # Z.to_pos (10 ^ (- k))).

(** ExponentPart followed by the end of the string. *)
Definition exponent_part (s : string) : option Z :=
  match s with
  | EmptyString => Some 0
  | String c s' =>
      if bool_decide (c = "e"%char \/ c = "E"%char) then
        let '(neg, s'') :=
          match s' with
          | String "-"%char t => (true, t)
          | String "+"%char t => (false, t)
          | _ => (false, s')
          end in
        match digits 10 s'' 0 0 with
        | (e, S _, EmptyString) => Some (if neg : bool then - e else e)
        | _ => None
        end
      else None
  end.

(** StrUnsignedDecimalLiteral. *)
Definition unsigned_decimal (s : string) : number :=
  if bool_decide (s = "Infinity") then Inf false else
  let '(m1, n1, r1) := digits 10 s 0 0 in
  let '(m, n2, r2) :=
    match r1 with
    | String "."%char t => digits 10 t m1 0
    | _ => (m1, 0%nat, r1)
    end in
  match (n1 + n2)%nat, exponent_part r2 with
  | S _, Some e => Num (of_Z m * pow10 (e - Z.of_nat n2))%Qc
  | _, _ => NaN
  end.

(** NonDecimalIntegerLiteral: [0x], [0o], [0b] in either case. *)
Definition non_decimal (s : string) : option number :=
  match s with
  | String "0"%char (String c t) =>
      let base :=
        if bool_decide (c = "x"%char \/ c = "X"%char) then Some 16
        else if bool_decide (c = "o"%char \/ c = "O"%char) then Some 8
        else if bool_decide (c = "b"%char \/ c = "B"%char) then Some 2
        else None in
      match base with
      | Some b =>
          match digits b t 0 0 with
          | (v, S _, EmptyString) => Some (Num (of_Z v))
          | _ => Some NaN
          end
      | None => None
      end
  | _ => None
  end.

(** StringToNumber. *)
Definition StringToNumber (s : string) : number :=
  match trim s with
  | EmptyString => Num (of_Z 0)
  | String c t as u =>
      match non_decimal u with
      | Some n => n
      | None =>
          if bool_decide (c = "-"%char) then num_neg (unsigned_decimal t)
          else if bool_decide (c = "+"%char) then unsigned_decimal t
          else unsigned_decimal u
      end
  end.

(** [Number(v)]. *)
Definition Number (v : value) : number :=
  match v with
  | VUndefined => NaN
  | VNull => Num (of_Z 0)
  | VNum n => n
  | VStr s => StringToNumber s
  end.

(** ** The value-pool extractor (index.js, lines 33-37) *)

(** [new Set(values)]: the elements in insertion order; [add] keeps the first
    of two SameValueZero-equal values. *)
Definition Set_add (set : list value) (v : value) : list value :=
  if bool_decide (v ∈ set) then set else set ++ [v].

Definition Set_from (values : list value) : list value :=
  fold_left Set_add values [].

(** The test of the [filter] callback. *)
Definition usable (val : value) : Prop :=
  val ≠ VUndefined ∧ val ≠ VNull ∧ val ≠ VStr "".

#[global] Instance usable_dec val : Decision (usable val).
Proof. unfold usable. apply _. Defined.

Definition getUniqueValuesFromColumn (records : list Row) (header : string)
  : list value :=
  let values := map (fun record => get_field record header) records in
  filter usable (Set_from values).

(** ** Column configurations *)

(** The object built by [configureColumn] and stored in templates.  A property
    that is absent is held as what the generator reads from it: NaN for the
    numeric ones, the text [undefined] for [prefix]; only an absent [list]
    behaves differently from any value and is [None]. *)
Record ColumnConfig := {
  cfg_header : string;
  cfg_type : string;
  cfg_min : number;
  cfg_max : number;
  cfg_list : option (list value);
  cfg_length : number;
  cfg_prefix : string;
  cfg_start : number;
  cfg_step : number
}.

(** [{ header, type }] *)
Definition base_config (header type : string) : ColumnConfig :=
  {| cfg_header := header; cfg_type := type;
     cfg_min := NaN; cfg_max := NaN; cfg_list := None; cfg_length := NaN;
     cfg_prefix := "undefined"; cfg_start := NaN; cfg_step := NaN |}.

(** ** The row loop of [main] (index.js, lines 276-306) *)

(** One pass of the [switch] for row [i]: the record after the assignment, or
    the record unchanged when no [case] matches. *)
Definition generateColumn (i : nat) (config : ColumnConfig) (record : Row)
  : M Row :=
  let type := cfg_type config in
  if bool_decide (type = "1") then
    v ← getRandomNumber (cfg_min config) (cfg_max config);
    mret (<[cfg_header config := VNum v]> record)
  else if bool_decide (type = "2" ∨ type = "3") then
    v ← getRandomFromList (cfg_list config);
    mret (<[cfg_header config := v]> record)
  else if bool_decide (type = "4") then
    v ← getRandomString (cfg_length config);
    mret (<[cfg_header config := VStr v]> record)
  else if bool_decide (type = "5") then
    mret (<[cfg_header config :=
              VNum (num_add (cfg_start config)
                            (num_mul (Num (of_nat i)) (cfg_step config)))]> record)
  else if bool_decide (type = "6") then
    match cfg_list config with
    | None => throw (TypeError "Cannot read properties of undefined (reading 'length')")
    | Some l =>
        mret (<[cfg_header config := array_get l (js_rem i (length l))]> record)
    end
  else if bool_decide (type = "7") then
    v ← getRandomStringWithPrefix (cfg_prefix config) (cfg_length config);
    mret (<[cfg_header config := VStr v]> record)
  else mret record.

(** [for (const config of columnConfigurations)] *)
Fixpoint generateRecord (i : nat) (columnConfigurations : list ColumnConfig)
    (record : Row) : M Row :=
  match columnConfigurations with
  | [] => mret record
  | config :: rest =>
      record' ← generateColumn i config record;
      generateRecord i rest record'
  end.

(** [n] more turns of the outer loop, the next row index being [i]. *)
Fixpoint generateRows (columnConfigurations : list ColumnConfig) (n i : nat)
    (outputData : list Row) : M (list Row) :=
  match n with
  | O => mret outputData
  | S n' =>
      record ← generateRecord i columnConfigurations ∅;
      generateRows columnConfigurations n' (S i) (outputData ++ [record])
  end.

Definition generateData (columnConfigurations : list ColumnConfig)
    (numRecords : number) : M (list Row) :=
  match for_count numRecords with
  | Some n => generateRows columnConfigurations n 0 []
  | None => diverge
  end.

(** A saved template, and the run that replays it without editing a column
    (index.js, lines 165-169): its configurations and its row count go to the
    row loop as they are stored. *)
Record Template := {
  name : string;
  sourceFile : string;
  columnConfigurations : list ColumnConfig;
  numRecords : number;
  includeHeader : bool
}.

Definition generateFromTemplate (t : Template) : M (list Row) :=
  generateData (columnConfigurations t) (numRecords t).

(** The column of an output table. *)
Definition column (header : string) (outputData : list Row) : list value :=
  map (fun r => get_field r header) outputData.

(** ** The column builder (index.js, lines 373-590) *)

(** The choices of the generation-type menu. *)
Inductive GenerationType :=
  | FromSource     (* '3-source' *)
  | NumericRange   (* '1' *)
  | NumericFromList (* '2' *)
  | AlphaFromList  (* '3' *)
  | RandomString   (* '4' *)
  | PrefixedRandomString (* '7' *)
  | SequentialNumeric (* '5' *)
  | CyclicList.    (* '6' *)

(** [generationType === '3-source' ? '3' : generationType] *)
Definition type_tag (g : GenerationType) : string :=
  match g with
  | FromSource => "3"
  | NumericRange => "1"
  | NumericFromList => "2"
  | AlphaFromList => "3"
  | RandomString => "4"
  | PrefixedRandomString => "7"
  | SequentialNumeric => "5"
  | CyclicList => "6"
  end.

(** What the user answers to the prompts of one call.  The two list prompts
    hold the text as typed: the prompt's [filter] is applied by the builder. *)
Record Answers := {
  generationType : GenerationType;
  ans_min : number;
  ans_max : number;
  useSource : bool;
  numericList : string;
  alphaList : string;
  ans_length : number;
  ans_prefix : string;
  ans_start : number;
  ans_step : number
}.

(** What the builder does besides returning: the questions it asks and the
    lines it writes to the console, in order. *)
Inductive event :=
  | Prompt (names : list string)
  | Log (msg : string).

(** [filter: input => input.split(',').map(Number)] *)
Definition numericList_filter (input : string) : list value :=
  map (fun v => VNum (Number (VStr v))) (split ","%char input).

(** [filter: input => input.split(',').map(v => v.trim())] *)
Definition alphaList_filter (input : string) : list value :=
  map (fun v => VStr (trim v)) (split ","%char input).

Definition set_list (c : ColumnConfig) (l : list value) : ColumnConfig :=
  {| cfg_header := cfg_header c; cfg_type := cfg_type c;
     cfg_min := cfg_min c; cfg_max := cfg_max c; cfg_list := Some l;
     cfg_length := cfg_length c; cfg_prefix := cfg_prefix c;
     cfg_start := cfg_start c; cfg_step := cfg_step c |}.

(** The branch shared by [case '3'], [case '6'] (after the source question)
    and [case '3-source']: the pool when it has values, a typed list
    otherwise. *)
Definition alpha_from_source (columnConfig : ColumnConfig)
    (uniqueValues : list value) (answers : Answers)
  : ColumnConfig * list event :=
  if bool_decide (length uniqueValues = 0%nat) then
    (set_list columnConfig (alphaList_filter (alphaList answers)),
     [Log "No valid values found in column. Please enter custom values.";
      Prompt ["alphaList"]])
  else
    (set_list columnConfig uniqueValues,
     [Log ("Using " +:+ pretty (length uniqueValues) +:+
           " unique values from source column.")]).

Definition configureColumn (header : string) (records : list Row)
    (answers : Answers) : ColumnConfig * list event :=
  let uniqueValues := getUniqueValuesFromColumn records header in
  let generationType := generationType answers in
  let columnConfig := base_config header (type_tag generationType) in
  let '(config, events) :=
    match generationType with
    | NumericRange =>
        ({| cfg_header := cfg_header columnConfig; cfg_type := cfg_type columnConfig;
            cfg_min := ans_min answers; cfg_max := ans_max answers;
            cfg_list := cfg_list columnConfig; cfg_length := cfg_length columnConfig;
            cfg_prefix := cfg_prefix columnConfig;
            cfg_start := cfg_start columnConfig; cfg_step := cfg_step columnConfig |},
         [Prompt ["min"; "max"]])
    | NumericFromList =>
        if useSource answers then
          let numericValues :=
            filter (fun val => isNaN val = false)
                   (map (fun val => Number val) uniqueValues) in
          if bool_decide (length numericValues = 0%nat) then
            (set_list columnConfig (numericList_filter (numericList answers)),
             [Prompt ["useSource"];
              Log "No valid numeric values found in column. Please enter custom values.";
              Prompt ["numericList"]])
          else
            (set_list columnConfig (map VNum numericValues),
             [Prompt ["useSource"];
              Log ("Using " +:+ pretty (length numericValues) +:+
                   " unique numeric values from source column.")])
        else
          (set_list columnConfig (numericList_filter (numericList answers)),
           [Prompt ["useSource"]; Prompt ["numericList"]])
    | FromSource => alpha_from_source columnConfig uniqueValues answers
    | AlphaFromList | CyclicList =>
        if useSource answers then
          let '(c, ev) := alpha_from_source columnConfig uniqueValues answers in
          (c, Prompt ["useSource"] :: ev)
        else
          (set_list columnConfig (alphaList_filter (alphaList answers)),
           [Prompt ["useSource"]; Prompt ["alphaList"]])
    | RandomString =>
        ({| cfg_header := cfg_header columnConfig; cfg_type := cfg_type columnConfig;
            cfg_min := cfg_min columnConfig; cfg_max := cfg_max columnConfig;
            cfg_list := cfg_list columnConfig; cfg_length := ans_length answers;
            cfg_prefix := cfg_prefix columnConfig;
            cfg_start := cfg_start columnConfig; cfg_step := cfg_step columnConfig |},
         [Prompt ["length"]])
    | PrefixedRandomString =>
        ({| cfg_header := cfg_header columnConfig; cfg_type := cfg_type columnConfig;
            cfg_min := cfg_min columnConfig; cfg_max := cfg_max columnConfig;
            cfg_list := cfg_list columnConfig; cfg_length := ans_length answers;
            cfg_prefix := ans_prefix answers;
            cfg_start := cfg_start columnConfig; cfg_step := cfg_step columnConfig |},
         [Prompt ["prefix"]; Prompt ["length"]])
    | SequentialNumeric =>
        ({| cfg_header := cfg_header columnConfig; cfg_type := cfg_type columnConfig;
            cfg_min := cfg_min columnConfig; cfg_max := cfg_max columnConfig;
            cfg_list := cfg_list columnConfig; cfg_length := cfg_length columnConfig;
            cfg_prefix := cfg_prefix columnConfig;
            cfg_start := ans_start answers; cfg_step := ans_step answers |},
         [Prompt ["start"; "step"]])
    end in
  (config, Prompt ["generationType"] :: events).

(** ** The custom row-count prompt (index.js, lines 238-257) *)

(** [x <= y] on numbers. *)
Definition num_leb (x y : number) : bool :=
  match x, y with
  | NaN, _ | _, NaN => false
  | Inf true, _ | _, Inf false => true
  | Inf false, _ | _, Inf true => false
  | Num p, Num q => bool_decide (p <= q)%Qc
  end.

(** [parseInt(input)] without a radix: leading white space, a sign, an
    optional [0x] prefix, then the longest run of digits; NaN when there is
    none. *)
Definition parseInt (input : string) : number :=
  let s := trim_start input in
  let '(neg, s1) :=
    match s with
    | String "-"%char t => (true, t)
    | String "+"%char t => (false, t)
    | _ => (false, s)
    end in
  let '(radix, s2) :=
    match s1 with
    | String "0"%char (String c t) =>
        if bool_decide (c = "x"%char \/ c = "X"%char) then (16, t) else (10, s1)
    | _ => (10, s1)
    end in
  match digits radix s2 0 0 with
  | (v, S _, _) => Num (of_Z (if neg : bool then - v else v))
  | (_, O, _) => NaN
  end.

(** The answer of a [validate] function: [true], or the message shown to the
    user, who is asked again. *)
Inductive validation :=
  | Valid
  | Invalid (msg : string).

(** The [validate] of the custom row-count question. *)
Definition customRecords_validate (input : string) : validation :=
  let num := parseInt input in
  if isNaN num || num_leb num (Num (of_Z 0))
  then Invalid "Please enter a valid positive number"
  else Valid.

(** The [filter] of the custom row-count question: what becomes
    [numRecords]. *)
Definition customRecords_filter (input : string) : number := parseInt input.

(** ** Definitions used to state the properties, and sample inputs *)

(** The cell of row [i] under a cyclic list. *)
Definition cyclic_cell (values : list value) (i : nat) : value :=
  nth (i mod length values) values VUndefined.

(** The state of the random source after one draw. *)
Definition advance (s : Rng) : Rng := {| draws := draws s; pos := S (pos s) |}.

Definition rng0 (r : Qc) : Rng := {| draws := fun _ => r; pos := 0 |}.

Definition half : Qc := Q2Qc (1 # 2).

Definition cyc_xy : ColumnConfig :=
  set_list (base_config "c" "6") [VStr "x"; VStr "y"].

Definition seq_cfg : ColumnConfig :=
  {| cfg_header := "id"; cfg_type := "5"; cfg_min := NaN; cfg_max := NaN;
     cfg_list := None; cfg_length := NaN; cfg_prefix := "undefined";
     cfg_start := Num (of_Z 10); cfg_step := Num (of_Z 3) |}.

(** The random source after [n] draws. *)
Definition advance_by (n : nat) (s : Rng) : Rng :=
  {| draws := draws s; pos := (pos s + n)%nat |}.

(** The alphabet of [getRandomString]: 26 upper-case letters, 26 lower-case
    letters and 10 digits. *)
Definition alphabet : list ascii := list_ascii_of_string chars.

(** De-duplication that keeps, of equal values, the one met first. *)
Fixpoint dedup_first (l : list value) : list value :=
  match l with
  | [] => []
  | x :: l' => x :: filter (fun y => y <> x) (dedup_first l')
  end.

(** The extractor in the order of the specification (4.1): read the column,
    drop the undefined, null and empty-string values, then de-duplicate
    keeping first occurrences. *)
Definition extractPool (records : list Row) (columnName : string) : list value :=
  dedup_first (filter usable (map (fun record => get_field record columnName) records)).

Definition pool_example : list Row :=
  [ {["c" := VStr "b"]}; {["c" := VStr "a"]}; {["c" := VStr "b"]};
    {["c" := VStr ""]}; {["c" := VStr "a"]} ].

Definition no_numeric_message : string :=
  "No valid numeric values found in column. Please enter custom values.".

Definition numeric_answers (custom : string) : Answers :=
  {| generationType := NumericFromList; ans_min := NaN; ans_max := NaN;
     useSource := true; numericList := custom; alphaList := "";
     ans_length := NaN; ans_prefix := ""; ans_start := NaN; ans_step := NaN |}.

Definition numeric_records : list Row :=
  [ {["c" := VStr "1"]}; {["c" := VStr "2"]}; {["c" := VStr "abc"]};
    {["c" := VStr "3"]} ].

(** The strategies that carry a list. *)
Definition list_based (g : GenerationType) : bool :=
  match g with
  | FromSource | NumericFromList | AlphaFromList | CyclicList => true
  | _ => false
  end.

Definition alpha_answers (g : GenerationType) (source : bool) (typed : string)
  : Answers :=
  {| generationType := g; ans_min := NaN; ans_max := NaN; useSource := source;
     numericList := typed; alphaList := typed; ans_length := NaN;
     ans_prefix := ""; ans_start := NaN; ans_step := NaN |}.


Definition range_answers (lo hi : number) : Answers :=
  {| generationType := NumericRange; ans_min := lo; ans_max := hi;
     useSource := true; numericList := ""; alphaList := ""; ans_length := NaN;
     ans_prefix := ""; ans_start := NaN; ans_step := NaN |}.

(** A configuration on which the [switch] neither throws nor loops for ever:
    a list where one is read, a length that is not [+Infinity]. *)
Definition well_formed (config : ColumnConfig) : Prop :=
  (cfg_type config ∈ ["2"; "3"; "6"] -> cfg_list config <> None)
  /\ (cfg_type config ∈ ["4"; "7"] -> cfg_length config <> Inf false).

Definition recognized (type : string) : Prop :=
  type ∈ ["1"; "2"; "3"; "4"; "5"; "6"; "7"].

Definition ghost_cfg : ColumnConfig := base_config "ghost" "8".

(** ** The template store (index.js, lines 40-83) *)

(** An entry of [config.templates]: the five fields of a template and the
    time it was saved. *)
Record SavedTemplate := {
  template : Template;
  createdAt : string
}.

(** The object read from [config.json]; [templates] is [None] when the object
    has no such property. *)
Record ConfigDoc := { templates : option (list SavedTemplate) }.

(** What [fs.existsSync], [fs.readFileSync] and [JSON.parse] make of
    [config.json]: no file, an exception with its message, or the object the
    text parses to. *)
Inductive ConfigFile :=
  | FileMissing
  | FileUnreadable (message : string)
  | FileParsed (config : ConfigDoc).

Inductive console :=
  | ConsoleLog (msg : string)
  | ConsoleError (args : list string).

Definition loadConfigurations (file : ConfigFile) : ConfigDoc * list console :=
  match file with
  | FileParsed config => (config, [])
  | FileUnreadable message =>
      ({| templates := Some [] |},
       [ConsoleError ["Error loading configurations:"; message]])
  | FileMissing => ({| templates := Some [] |}, [])
  end.

(** [l.findIndex(p)]: the first position that satisfies [p], or -1. *)
Fixpoint findIndex {A : Type} (p : A -> bool) (l : list A) : Z :=
  match l with
  | [] => -1
  | x :: l' =>
      if p x then 0
      else let i := findIndex p l' in if bool_decide (0 <= i) then i + 1 else -1
  end.

(** [saveConfiguration]: the result, the document handed to [JSON.stringify]
    and [fs.writeFileSync] when the function gets that far, and the console
    lines.  [now] is [new Date().toISOString()]; [write_error] is the message
    of the exception of [writeFileSync], if it throws. *)
Definition saveConfiguration (name' sourceFile' : string)
    (columnConfigurations' : list ColumnConfig) (numRecords' : number)
    (includeHeader' : bool) (now : string) (file : ConfigFile)
    (write_error : option string) : bool * option ConfigDoc * list console :=
  let '(config, loaded) := loadConfigurations file in
  match templates config with
  | None =>
      (false, None,
       loaded ++ [ConsoleError ["Error saving configuration:";
                   "Cannot read properties of undefined (reading 'findIndex')"]])
  | Some ts =>
      let templateIndex :=
        findIndex (fun t => bool_decide (name (template t) = name')) ts in
      let newTemplate :=
        {| template := {| name := name'; sourceFile := sourceFile';
                          columnConfigurations := columnConfigurations';
                          numRecords := numRecords';
                          includeHeader := includeHeader' |};
           createdAt := now |} in
      let ts' :=
        if bool_decide (0 <= templateIndex)
        then <[Z.to_nat templateIndex := newTemplate]> ts
        else ts ++ [newTemplate] in
      let written := {| templates := Some ts' |} in
      match write_error with
      | None =>
          (true, Some written,
           loaded ++ [ConsoleLog ("Configuration '" +:+ name' +:+
                                  "' saved successfully.")])
      | Some message =>
          (false, Some written,
           loaded ++ [ConsoleError ["Error saving configuration:"; message]])
      end
  end.

(** ** Choosing a template and editing its columns (index.js, lines 93-112
    and 185-208) *)

(** The values behind the entries of the template menu. *)
Definition template_choices (ts : list SavedTemplate) : list string :=
  "new" :: map (fun t => name (template t)) ts.

(** What the start of [main] decides: a new configuration, a template, or the
    TypeError of reading [.name] of the [undefined] that [find] returns. *)
Inductive TemplateChoice :=
  | NewConfiguration
  | UseTemplate (templateConfig : SavedTemplate)
  | NoSuchTemplate.

(** [choice] is the answer to the menu, asked only if there are templates. *)
Definition chooseTemplate (config : ConfigDoc) (choice : string) : TemplateChoice :=
  match templates config with
  | None | Some [] => NewConfiguration
  | Some ts =>
      if bool_decide (choice <> "new") then
        match List.find (fun t => bool_decide (name (template t) = choice)) ts with
        | Some t => UseTemplate t
        | None => NoSuchTemplate
        end
      else NewConfiguration
  end.

(** One turn of [for (const header of columnsToEdit.columns)]: the existing
    configuration of the column is removed with [splice] and the new one is
    pushed at the end. *)
Definition editColumn (records : list Row) (header : string) (answers : Answers)
    (columnConfigurations' : list ColumnConfig) : list ColumnConfig :=
  let columnIndex :=
    findIndex (fun c => bool_decide (cfg_header c = header)) columnConfigurations' in
  let spliced :=
    if bool_decide (0 <= columnIndex)
    then delete (Z.to_nat columnIndex) columnConfigurations'
    else columnConfigurations' in
  spliced ++ [fst (configureColumn header records answers)].

(** The whole loop; each column to edit comes with the answers the user gives
    for it. *)
Definition editColumns (records : list Row) (columnsToEdit : list (string * Answers))
    (columnConfigurations' : list ColumnConfig) : list ColumnConfig :=
  fold_left (fun cs e => editColumn records (fst e) (snd e) cs)
            columnsToEdit columnConfigurations'.

(** The loop of a run without template (index.js, lines 211-221): one
    configuration per header, in the order of the headers.  The two console
    lines written per column are left out. *)
Definition configureHeaders (records : list Row) (headers : list (string * Answers))
  : list ColumnConfig :=
  map (fun e => fst (configureColumn (fst e) records (snd e))) headers.

(** ** More definitions used to state properties *)

#[global] Instance recognized_dec (type : string) : Decision (recognized type).
Proof. unfold recognized. apply _. Defined.

(** A configuration whose assignment stores a property: its type is one the
    [switch] of the row loop handles and its header is not [__proto__]. *)
Definition stores (config : ColumnConfig) : Prop :=
  recognized (cfg_type config) /\ cfg_header config <> "__proto__".

#[global] Instance stores_dec (config : ColumnConfig) : Decision (stores config).
Proof. unfold stores. apply _. Defined.

(** The headers under which the row loop stores a property. *)
Definition written_headers (configs : list ColumnConfig) : gset string :=
  list_to_set (map cfg_header (filter stores configs)).

(** The key a configuration adds to a record. *)
Definition key_of (config : ColumnConfig) : gset string :=
  if decide (stores config) then {[cfg_header config]} else ∅.

(** The draws one record takes from the random source. *)
Definition draws_of (config : ColumnConfig) : nat :=
  let type := cfg_type config in
  if bool_decide (type = "1" \/ type = "2" \/ type = "3") then 1%nat
  else if bool_decide (type = "4" \/ type = "7")
       then default 0%nat (for_count (cfg_length config))
       else 0%nat.

Definition draws_per_record (configs : list ColumnConfig) : nat :=
  list_sum (map draws_of configs).

(** How often a character occurs in a string. *)
Fixpoint count_char (c : ascii) (s : string) : nat :=
  match s with
  | EmptyString => 0%nat
  | String a s' => ((if bool_decide (a = c) then 1 else 0) + count_char c s')%nat
  end.


(** The entry that [saveConfiguration] builds. *)
Definition new_template (name' sourceFile' : string)
    (columnConfigurations' : list ColumnConfig) (numRecords' : number)
    (includeHeader' : bool) (now : string) : SavedTemplate :=
  {| template := {| name := name'; sourceFile := sourceFile';
                    columnConfigurations := columnConfigurations';
                    numRecords := numRecords'; includeHeader := includeHeader' |};
     createdAt := now |}.

(** A stored template with another name. *)
Definition other_name (name' : string) (t : SavedTemplate) : Prop :=
  name (template t) <> name'.

(** The names of the stored templates. *)
Definition template_names (ts : list SavedTemplate) : list string :=
  map (fun t => name (template t)) ts.

Definition typed_answers : Answers :=
  {| generationType := NumericFromList; ans_min := NaN; ans_max := NaN;
     useSource := false; numericList := "1,x,3"; alphaList := "";
     ans_length := NaN; ans_prefix := ""; ans_start := NaN; ans_step := NaN |}.

Definition sample_template (n : string) (rows : Z) : SavedTemplate :=
  new_template n "source.csv" [cyc_xy] (Num (of_Z rows)) true "2024-01-01T00:00:00.000Z".

Definition sample_store : ConfigFile :=
  FileParsed {| templates := Some [sample_template "a" 10; sample_template "b" 20] |}.


(** A column with no numeric value. *)
Definition abc_records : list Row := [ {["c" := VStr "abc"]} ].

(** The integers that binary64 holds exactly, one by one: on them the sums,
    differences and products of the code are exact as long as the result is
    in the range too. *)
Definition safe_integer (z : Z) : Prop := - 2 ^ 53 <= z <= 2 ^ 53.

Definition proto_xy : ColumnConfig :=
  set_list (base_config "__proto__" "6") [VStr "x"; VStr "y"].

Definition seq_inf : ColumnConfig :=
  {| cfg_header := "id"; cfg_type := "5"; cfg_min := NaN; cfg_max := NaN;
     cfg_list := None; cfg_length := NaN; cfg_prefix := "undefined";
     cfg_start := Num (of_Z 1); cfg_step := Inf false |}.

(** * Properties *)

(** ** Arithmetic of draws *)

Lemma this_of_Z (z : Z) : (this (of_Z z) == inject_Z z)%Q.
Proof. unfold of_Z. simpl. apply Qred_correct. Qed.

Lemma Qfloor_of_Z (z : Z) : Qfloor (of_Z z) = z.
Proof. rewrite this_of_Z. apply Qfloor_Z. Qed.

(** A draw of [0, 1) scaled by a positive integer [n] and floored is one of
    [0 .. n-1]. *)
Lemma floor_scale_bounds (r : Qc) (n : Z) :
  (of_Z 0 <= r)%Qc -> (r < of_Z 1)%Qc -> 0 < n ->
  0 <= Qfloor (r * of_Z n)%Qc < n.
Proof.
  unfold Qcle, Qclt. rewrite !this_of_Z. intros H0 H1 Hn.
  assert (Hmul : (this (r * of_Z n)%Qc == r * inject_Z n)%Q).
  { simpl. rewrite Qred_correct. rewrite (Qred_correct (inject_Z n)). reflexivity. }
  rewrite Hmul.
  assert (Hpos : (0 < inject_Z n)%Q) by (change 0%Q with (inject_Z 0); rewrite <- Zlt_Qlt; exact Hn).
  split.
  - rewrite <- (Qfloor_Z 0). apply Qfloor_resp_le.
    apply Qmult_le_0_compat; [exact H0 | apply Qlt_le_weak; exact Hpos].
  - assert (Hlt : (r * inject_Z n < inject_Z n)%Q).
    { rewrite <- (Qmult_1_l (inject_Z n)) at 2.
      apply Qmult_lt_r; assumption. }
    rewrite Zlt_Qlt. eapply Qle_lt_trans; [apply Qfloor_le | exact Hlt].
Qed.

Lemma this_plus (x y : Qc) : (this (x + y)%Qc == this x + this y)%Q.
Proof. simpl. apply Qred_correct. Qed.


Lemma of_Z_plus (x y : Z) : (of_Z x + of_Z y)%Qc = of_Z (x + y).
Proof.
  apply Qc_is_canon. rewrite this_plus, !this_of_Z, inject_Z_plus. reflexivity.
Qed.

(** ** NumericRange *)




Lemma valid_rng0 (r : Qc) : (of_Z 0 <= r)%Qc -> (r < of_Z 1)%Qc -> valid_rng (rng0 r).
Proof. intros H0 H1 n. split; assumption. Qed.

(** Closed comparisons and equations of rationals, by evaluation. *)
Ltac Qc_closed :=
  lazymatch goal with
  | |- (_ <= _)%Qc => unfold Qcle; vm_compute; discriminate
  | |- (_ < _)%Qc => unfold Qclt; vm_compute; reflexivity
  | |- ~ (_ <= _)%Qc => unfold Qcle; vm_compute; intros Hle; apply Hle; reflexivity
  | |- @eq Qc _ _ => apply Qc_is_canon; vm_compute; reflexivity
  end.

Ltac safe_closed := unfold safe_integer; cbn; lia.



(** ** Loop counts and array reads *)

Lemma Qred_inject_Z (z : Z) : Qred (inject_Z z) = inject_Z z.
Proof. apply Qred_identity. simpl. apply Z.gcd_1_r. Qed.

Lemma for_count_of_nat (n : nat) : for_count (Num (of_nat n)) = Some n.
Proof.
  unfold for_count, of_nat. rewrite this_of_Z, Qceiling_Z, Nat2Z.id. reflexivity.
Qed.

Lemma array_get_of_nat (l : list value) (n : nat) :
  array_get l (Num (of_nat n)) = nth n l VUndefined.
Proof.
  unfold array_get, of_nat, of_Z. simpl. rewrite Qred_inject_Z. simpl.
  rewrite bool_decide_eq_true_2 by (split; [reflexivity | lia]).
  rewrite Nat2Z.id. reflexivity.
Qed.

Lemma array_get_rem (l : list value) (i : nat) :
  l <> [] ->
  array_get l (js_rem i (length l)) = nth (i mod length l) l VUndefined.
Proof.
  intros Hl. destruct l as [| x l]; [congruence |].
  unfold js_rem. cbn [length]. apply array_get_of_nat.
Qed.

(** One full pass over the list, starting at a multiple of its length. *)
Lemma cycle_block (l : list value) (k : nat) :
  map (fun i => nth (i mod length l) l VUndefined) (seq (k * length l) (length l)) = l.
Proof.
  set (f := fun i => nth (i mod length l) l VUndefined).
  apply (nth_ext _ _ (f 0%nat) VUndefined).
  - rewrite length_map, length_seq. reflexivity.
  - intros n Hn. rewrite length_map, length_seq in Hn.
    rewrite map_nth, seq_nth by exact Hn. unfold f.
    rewrite Nat.add_comm, Nat.Div0.mod_add, Nat.mod_small by exact Hn.
    apply nth_indep. exact Hn.
Qed.

(** ** Assignments to a record *)

Lemma get_field_insert (record : Row) (key : string) (v : value) :
  key <> "__proto__" -> get_field (<[key := v]> record) key = v.
Proof.
  intros Hkey. unfold get_field, insert, Row_insert, lookup, Row_lookup.
  rewrite bool_decide_eq_false_2 by exact Hkey. cbn [own].
  rewrite lookup_insert_eq. reflexivity.
Qed.

Lemma dom_assign (record : Row) (key : string) (v : value) :
  dom (<[key := v]> record)
  = (if decide (key = "__proto__") then ∅ else {[key]}) ∪ dom record.
Proof.
  unfold insert, Row_insert, dom, Row_dom.
  destruct (decide (key = "__proto__")) as [Hkey | Hkey].
  - rewrite bool_decide_eq_true_2 by exact Hkey. set_solver.
  - rewrite bool_decide_eq_false_2 by exact Hkey. cbn [own]. apply dom_insert_L.
Qed.

Lemma column_of_assignments (header : string) (cells : list value) :
  header <> "__proto__" ->
  column header (map (fun v => <[header := v]> (∅ : Row)) cells) = cells.
Proof.
  intros Hkey. unfold column. rewrite map_map.
  rewrite <- (map_id cells) at 2. apply map_ext. intros v.
  apply get_field_insert. exact Hkey.
Qed.

(** A row loop over one column that assigns [cell i] in row [i] and takes no
    draw. *)
Lemma single_column_rows (config : ColumnConfig) (cell : nat -> value) :
  (forall (i : nat) (record : Row) (s : Rng),
      generateColumn i config record s
      = Ok (<[cfg_header config := cell i]> record) s) ->
  forall (n i : nat) (outputData : list Row) (s : Rng),
    generateRows [config] n i outputData s
    = Ok (outputData
          ++ map (fun j => <[cfg_header config := cell j]> (∅ : Row)) (seq i n)) s.
Proof.
  intros Hcol n. induction n as [| n IH]; intros i outputData s.
  - simpl. rewrite app_nil_r. reflexivity.
  - cbn [generateRows generateRecord]. unfold mbind, M_bind at 1.
    unfold mbind, M_bind at 1. rewrite Hcol. cbn [mret M_ret].
    rewrite IH. cbn [seq map]. rewrite <- app_assoc. reflexivity.
Qed.

Lemma single_column_data (config : ColumnConfig) (cell : nat -> value) :
  (forall (i : nat) (record : Row) (s : Rng),
      generateColumn i config record s
      = Ok (<[cfg_header config := cell i]> record) s) ->
  forall (n : nat) (s : Rng),
    generateData [config] (Num (of_nat n)) s
    = Ok (map (fun v => <[cfg_header config := v]> (∅ : Row)) (map cell (seq 0 n))) s.
Proof.
  intros Hcol n s. unfold generateData.
  rewrite for_count_of_nat, (single_column_rows config cell Hcol), map_map.
  reflexivity.
Qed.

(** ** CyclicList *)

Section CyclicList.
Variable config : ColumnConfig.
Variable values : list value.
Hypothesis Htype : cfg_type config = "6".
Hypothesis Hlist : cfg_list config = Some values.
Hypothesis Hne : values <> [].

Lemma cyclic_column (i : nat) (record : Row) (s : Rng) :
  generateColumn i config record s
  = Ok (<[cfg_header config := cyclic_cell values i]> record) s.
Proof.
  unfold generateColumn. rewrite Htype, Hlist. simpl.
  rewrite array_get_rem by exact Hne. reflexivity.
Qed.

Lemma cyclic_data (n : nat) (s : Rng) :
  generateData [config] (Num (of_nat n)) s
  = Ok (map (fun v => <[cfg_header config := v]> (∅ : Row))
            (map (cyclic_cell values) (seq 0 n))) s.
Proof. apply single_column_data. exact cyclic_column. Qed.
End CyclicList.

Lemma two_cycles (values : list value) :
  map (cyclic_cell values) (seq 0 (2 * length values)) = values ++ values.
Proof.
  replace (2 * length values)%nat with (length values + length values)%nat by lia.
  rewrite seq_app, map_app. f_equal.
  - apply (cycle_block values 0).
  - replace (0 + length values)%nat with (1 * length values)%nat by lia.
    apply (cycle_block values 1).
Qed.

(** C2, as amended: a CyclicList configuration with a non-empty list of
    length L assigns [values[i mod L]] to its column in row [i], without
    consuming a draw, so the rows of a run are the records of these
    assignments in row order; for a header other than [__proto__] the column
    of rows [0 .. 2L-1] is the list twice, back to back, and the column of
    five rows over [x, y] is [x, y, x, y, x]. *)
Theorem cyclic_list_wraps (config : ColumnConfig) (values : list value) :
  cfg_type config = "6" -> cfg_list config = Some values -> values <> [] ->
  (forall (i : nat) (record : Row) (s : Rng),
      generateColumn i config record s
      = Ok (<[cfg_header config := nth (i mod length values) values VUndefined]> record) s)
  /\ (forall (n : nat) (s : Rng),
        generateData [config] (Num (of_nat n)) s
        = Ok (map (fun v => <[cfg_header config := v]> (∅ : Row))
                  (map (fun i => nth (i mod length values) values VUndefined)
                       (seq 0 n))) s)
  /\ (cfg_header config <> "__proto__" ->
      forall s : Rng, exists rows,
        generateData [config] (Num (of_nat (2 * length values))) s = Ok rows s
        /\ column (cfg_header config) rows = values ++ values)
  /\ (cfg_header config <> "__proto__" -> values = [VStr "x"; VStr "y"] ->
      forall s : Rng, exists rows,
        generateData [config] (Num (of_nat 5)) s = Ok rows s
        /\ column (cfg_header config) rows
           = [VStr "x"; VStr "y"; VStr "x"; VStr "y"; VStr "x"]).
Proof.
  intros Htype Hlist Hne.
  pose proof (cyclic_data config values Htype Hlist Hne) as Hdata.
  split; [| split; [| split]].
  - intros i record s. apply cyclic_column; assumption.
  - exact Hdata.
  - intros Hkey s. eexists. split; [apply Hdata |].
    rewrite column_of_assignments by exact Hkey. apply two_cycles.
  - intros Hkey Hxy s. eexists. split; [apply Hdata |].
    rewrite column_of_assignments by exact Hkey. rewrite Hxy. reflexivity.
Qed.

Lemma cyclic_list_wraps_witness :
  cfg_type cyc_xy = "6" /\ cfg_list cyc_xy = Some [VStr "x"; VStr "y"]
  /\ [VStr "x"; VStr "y"] <> [] /\ cfg_header cyc_xy <> "__proto__"
  /\ exists rows,
       generateData [cyc_xy] (Num (of_nat 5)) (rng0 half) = Ok rows (rng0 half)
       /\ column "c" rows = [VStr "x"; VStr "y"; VStr "x"; VStr "y"; VStr "x"].
Proof.
  assert (Hne : [VStr "x"; VStr "y"] <> []) by discriminate.
  assert (Hkey : cfg_header cyc_xy <> "__proto__") by discriminate.
  split; [reflexivity | split; [reflexivity | split; [exact Hne |]]].
  split; [exact Hkey |].
  exact (proj2 (proj2 (proj2 (cyclic_list_wraps cyc_xy [VStr "x"; VStr "y"]
                         eq_refl eq_refl Hne))) Hkey eq_refl (rng0 half)).
Defined.

(** C2 as stated fails for the header [__proto__]: the five assignments
    store nothing, the five records have no property, and the column read
    back is not [x, y, x, y, x]. *)
Lemma cyclic_proto_header_not_stored :
  cfg_type proto_xy = "6" /\ cfg_list proto_xy = Some [VStr "x"; VStr "y"]
  /\ generateData [proto_xy] (Num (of_nat 5)) (rng0 half)
     = Ok [∅; ∅; ∅; ∅; ∅] (rng0 half)
  /\ column (cfg_header proto_xy) [∅; ∅; ∅; ∅; ∅]
     <> [VStr "x"; VStr "y"; VStr "x"; VStr "y"; VStr "x"].
Proof.
  split; [reflexivity | split; [reflexivity | split]].
  - vm_compute. reflexivity.
  - vm_compute. discriminate.
Qed.

(** ** SequentialNumeric *)

Lemma this_mult (x y : Qc) : (this (x * y)%Qc == this x * this y)%Q.
Proof. simpl. apply Qred_correct. Qed.

Lemma of_Z_mult (x y : Z) : (of_Z x * of_Z y)%Qc = of_Z (x * y).
Proof.
  apply Qc_is_canon. rewrite this_mult, !this_of_Z. unfold Qeq. cbn. lia.
Qed.

Lemma of_Z_lt (x y : Z) : (of_Z x < of_Z y)%Qc <-> x < y.
Proof. unfold Qclt. rewrite !this_of_Z, <- Zlt_Qlt. reflexivity. Qed.

Lemma sequential_column (config : ColumnConfig) (a b : Z) :
  cfg_type config = "5" ->
  cfg_start config = Num (of_Z a) -> cfg_step config = Num (of_Z b) ->
  forall (i : nat) (record : Row) (s : Rng),
    generateColumn i config record s
    = Ok (<[cfg_header config := VNum (Num (of_Z (a + Z.of_nat i * b)))]> record) s.
Proof.
  intros Htype Ha Hb i record s. unfold generateColumn.
  rewrite Htype, Ha, Hb. simpl. unfold of_nat.
  rewrite of_Z_mult, of_Z_plus. reflexivity.
Qed.

(** C3, as amended: for a SequentialNumeric configuration whose [start] and
    [step] are integers, and a run of [n] rows in which the row indices, the
    products [i * step] and the values [start + i * step] stay in the range
    that binary64 holds exactly, row [i] of the output is assigned
    [start + i * step], whatever the random source, which is left untouched;
    over the rows the values increase strictly when [step > 0], decrease
    strictly when [step < 0] and stay at [start] when [step = 0]. *)
Theorem sequential_numeric (config : ColumnConfig) (a b : Z) (n : nat) :
  cfg_type config = "5" ->
  cfg_start config = Num (of_Z a) -> cfg_step config = Num (of_Z b) ->
  safe_integer (Z.of_nat n) ->
  (forall i : nat, (i < n)%nat ->
                   safe_integer (Z.of_nat i * b)
                   /\ safe_integer (a + Z.of_nat i * b)) ->
  let cell := fun i : nat => VNum (Num (of_Z (a + Z.of_nat i * b))) in
  (forall s : Rng,
      generateData [config] (Num (of_nat n)) s
      = Ok (map (fun v => <[cfg_header config := v]> (∅ : Row))
                (map cell (seq 0 n))) s)
  /\ (cfg_header config <> "__proto__" ->
      forall s : Rng, exists rows,
        generateData [config] (Num (of_nat n)) s = Ok rows s
        /\ column (cfg_header config) rows = map cell (seq 0 n))
  /\ (0 < b ->
      forall i j : nat, (i < j < n)%nat ->
        (of_Z (a + Z.of_nat i * b) < of_Z (a + Z.of_nat j * b))%Qc)
  /\ (b < 0 ->
      forall i j : nat, (i < j < n)%nat ->
        (of_Z (a + Z.of_nat j * b) < of_Z (a + Z.of_nat i * b))%Qc)
  /\ (b = 0 ->
      forall i : nat, (i < n)%nat -> of_Z (a + Z.of_nat i * b) = of_Z a).
Proof.
  intros Htype Ha Hb _ _ cell.
  pose proof (single_column_data config cell (sequential_column config a b Htype Ha Hb))
    as Hdata.
  split; [exact (Hdata n) | split; [| split; [| split]]].
  - intros Hkey s. eexists. split; [apply Hdata |].
    apply column_of_assignments. exact Hkey.
  - intros Hpos i j Hij. apply of_Z_lt. nia.
  - intros Hneg i j Hij. apply of_Z_lt. nia.
  - intros -> i _. f_equal. lia.
Qed.

Lemma sequential_numeric_witness :
  cfg_type seq_cfg = "5" /\ cfg_start seq_cfg = Num (of_Z 10)
  /\ cfg_step seq_cfg = Num (of_Z 3) /\ safe_integer (Z.of_nat 3)
  /\ (forall i : nat, (i < 3)%nat ->
                      safe_integer (Z.of_nat i * 3)
                      /\ safe_integer (10 + Z.of_nat i * 3))
  /\ cfg_header seq_cfg <> "__proto__" /\ 0 < 3 /\ (1 < 2 < 3)%nat
  /\ (exists rows,
        generateData [seq_cfg] (Num (of_nat 3)) (rng0 half) = Ok rows (rng0 half)
        /\ column "id" rows
           = map (fun i : nat => VNum (Num (of_Z (10 + Z.of_nat i * 3)))) (seq 0 3))
  /\ (of_Z (10 + Z.of_nat 1 * 3) < of_Z (10 + Z.of_nat 2 * 3))%Qc.
Proof.
  assert (Hn : safe_integer (Z.of_nat 3)) by safe_closed.
  assert (Hsafe : forall i : nat, (i < 3)%nat ->
                    safe_integer (Z.of_nat i * 3)
                    /\ safe_integer (10 + Z.of_nat i * 3)).
  { intros i Hi. unfold safe_integer.
    change (2 ^ 53) with 9007199254740992. lia. }
  assert (Hkey : cfg_header seq_cfg <> "__proto__") by discriminate.
  assert (Hpos : 0 < 3) by lia.
  assert (Hij : (1 < 2 < 3)%nat) by lia.
  pose proof (sequential_numeric seq_cfg 10 3 3 eq_refl eq_refl eq_refl Hn Hsafe)
    as (_ & Hcol & Hinc & _).
  split; [reflexivity | split; [reflexivity | split; [reflexivity |]]].
  split; [exact Hn | split; [exact Hsafe | split; [exact Hkey |]]].
  split; [exact Hpos | split; [exact Hij |]].
  split; [exact (Hcol Hkey (rng0 half)) | exact (Hinc Hpos 1%nat 2%nat Hij)].
Defined.

(** C3 as stated fails for a step of [+Infinity], which is above 0: row 0 is
    [1 + 0 * Infinity], that is NaN, and rows 1 and 2 are both [Infinity], so
    the values do not increase strictly. *)
Lemma sequential_infinite_step_repeats :
  cfg_type seq_inf = "5" /\ cfg_step seq_inf = Inf false
  /\ num_leb (cfg_step seq_inf) (Num (of_Z 0)) = false
  /\ generateData [seq_inf] (Num (of_nat 3)) (rng0 half)
     = Ok [ {["id" := VNum NaN]}; {["id" := VNum (Inf false)]};
            {["id" := VNum (Inf false)]} ] (rng0 half).
Proof.
  split; [reflexivity | split; [reflexivity | split; [reflexivity |]]].
  vm_compute. reflexivity.
Qed.

(** ** RandomString and PrefixedRandomString *)

Lemma append_cons (c : ascii) (s1 s2 : string) :
  String c s1 +:+ s2 = String c (s1 +:+ s2).
Proof. reflexivity. Qed.

Lemma append_nil_r (s : string) : s +:+ "" = s.
Proof. induction s as [| c s IH]; [reflexivity | rewrite append_cons, IH; reflexivity]. Qed.

Lemma append_assoc (s1 s2 s3 : string) : (s1 +:+ s2) +:+ s3 = s1 +:+ (s2 +:+ s3).
Proof.
  induction s1 as [| c s1 IH]; [reflexivity |].
  rewrite !append_cons, IH. reflexivity.
Qed.

(** A position inside a string holds one of its characters. *)
Lemma get_in (s : string) (n : nat) :
  (n < String.length s)%nat ->
  exists c, String.get n s = Some c /\ In c (list_ascii_of_string s).
Proof.
  revert n. induction s as [| a s IH]; intros n Hn; simpl in Hn; [lia |].
  destruct n as [| n].
  - exists a. split; [reflexivity | left; reflexivity].
  - destruct (IH n ltac:(lia)) as (c & Hget & Hin).
    exists c. split; [exact Hget | right; exact Hin].
Qed.

Lemma to_integer_of_Z (k : Z) : 0 <= k -> to_integer (Num (of_Z k)) = Some k.
Proof.
  intros Hk. unfold to_integer, Qc_is_neg.
  rewrite bool_decide_eq_false_2.
  - rewrite Qfloor_of_Z. reflexivity.
  - unfold Qclt. rewrite !this_of_Z, <- Zlt_Qlt. lia.
Qed.

Lemma charAt_in (s : string) (k : Z) :
  0 <= k < Z.of_nat (String.length s) ->
  exists c, charAt s (Num (of_Z k)) = String c EmptyString
            /\ In c (list_ascii_of_string s).
Proof.
  intros Hk. unfold charAt. rewrite to_integer_of_Z by lia.
  rewrite bool_decide_eq_true_2 by lia.
  destruct (get_in s (Z.to_nat k) ltac:(lia)) as (c & Hget & Hin).
  exists c. rewrite Hget. split; [reflexivity | exact Hin].
Qed.

Lemma valid_advance (s : Rng) : valid_rng s -> valid_rng (advance s).
Proof. intros H n. exact (H n). Qed.

Lemma getRandomString_loop_spec (n : nat) (result : string) (s : Rng) :
  valid_rng s ->
  exists str,
    getRandomString_loop n result s = Ok (result +:+ str) (advance_by n s)
    /\ String.length str = n
    /\ Forall (fun c => In c (list_ascii_of_string chars)) (list_ascii_of_string str).
Proof.
  revert result s. induction n as [| n IH]; intros result s Hs.
  - exists EmptyString. split; [| split; [reflexivity | constructor]].
    simpl. unfold mret, M_ret, advance_by.
    rewrite append_nil_r, Nat.add_0_r. destruct s; reflexivity.
  - destruct (Hs (pos s)) as [H0 H1].
    pose proof (floor_scale_bounds (draws s (pos s)) 62 H0 H1 ltac:(lia)) as Hf.
    destruct (charAt_in chars (Qfloor (draws s (pos s) * of_Z 62)%Qc) Hf)
      as (c & Hc & Hin).
    destruct (IH (result +:+ String c EmptyString) (advance s) (valid_advance s Hs))
      as (str & Hrun & Hlen & Hall).
    exists (String c str). split; [| split].
    + cbn [getRandomString_loop]. unfold mbind, M_bind, Math_random.
      change (of_nat (String.length chars)) with (of_Z 62).
      cbn [num_mul Math_floor]. rewrite Hc. fold (advance s). rewrite Hrun.
      rewrite append_assoc, append_cons. change ("" +:+ str) with str.
      unfold advance_by, advance. cbn [pos draws].
      do 2 f_equal. lia.
    + cbn [String.length]. rewrite Hlen. reflexivity.
    + cbn [list_ascii_of_string]. constructor; assumption.
Qed.

Lemma alphabet_62 :
  alphabet = map ascii_of_nat (seq 65 26 ++ seq 97 26 ++ seq 48 10)
  /\ length alphabet = 62%nat /\ NoDup alphabet.
Proof.
  split; [reflexivity | split; [reflexivity |]].
  apply (bool_decide_unpack _). vm_compute. exact I.
Qed.

(** C4: for a length [N] (a natural number) and draws in [0, 1),
    [getRandomString(N)] returns, after [N] draws, a string of exactly [N]
    characters, each one of the 62 alphanumeric symbols; for [N = 0] it is the
    empty string; [getRandomStringWithPrefix(prefix, N)] returns the prefix
    followed by that string. *)
Theorem getRandomString_alphanumeric (N : nat) (s : Rng) :
  valid_rng s ->
  alphabet = map ascii_of_nat (seq 65 26 ++ seq 97 26 ++ seq 48 10)
  /\ length alphabet = 62%nat /\ NoDup alphabet
  /\ exists str,
      getRandomString (Num (of_nat N)) s = Ok str (advance_by N s)
      /\ String.length str = N
      /\ Forall (fun c => In c alphabet) (list_ascii_of_string str)
      /\ (N = 0%nat -> str = "")
      /\ forall prefix : string,
          getRandomStringWithPrefix prefix (Num (of_nat N)) s
          = Ok (prefix +:+ str) (advance_by N s).
Proof.
  intros Hs. destruct alphabet_62 as (Hab & Hlen & Hnd).
  split; [exact Hab | split; [exact Hlen | split; [exact Hnd |]]].
  destruct (getRandomString_loop_spec N "" s Hs) as (str & Hrun & Hl & Hall).
  change ("" +:+ str) with str in Hrun.
  assert (Hget : getRandomString (Num (of_nat N)) s = Ok str (advance_by N s)).
  { unfold getRandomString. rewrite for_count_of_nat. exact Hrun. }
  exists str. split; [exact Hget | split; [exact Hl | split; [exact Hall | split]]].
  - intros HN. rewrite HN in Hl. destruct str; [reflexivity | discriminate].
  - intros prefix. unfold getRandomStringWithPrefix, mbind, M_bind.
    rewrite Hget. reflexivity.
Qed.

Lemma getRandomString_alphanumeric_witness :
  valid_rng (rng0 (Q2Qc (9 # 10)))
  /\ exists str,
      getRandomString (Num (of_nat 3)) (rng0 (Q2Qc (9 # 10)))
      = Ok str (advance_by 3 (rng0 (Q2Qc (9 # 10))))
      /\ String.length str = 3%nat.
Proof.
  assert (Hs : valid_rng (rng0 (Q2Qc (9 # 10)))) by (apply valid_rng0; Qc_closed).
  split; [exact Hs |].
  destruct (getRandomString_alphanumeric 3 (rng0 (Q2Qc (9 # 10))) Hs)
    as (_ & _ & _ & str & Hrun & Hlen & _).
  exists str. split; [exact Hrun | exact Hlen].
Defined.

(** ** The value pool *)

Lemma Set_from_acc (l acc : list value) :
  fold_left Set_add l acc = acc ++ filter (fun y => y ∉ acc) (dedup_first l).
Proof.
  revert acc. induction l as [| x l IH]; intros acc.
  - simpl. rewrite app_nil_r. reflexivity.
  - cbn [fold_left dedup_first]. rewrite IH. unfold Set_add.
    destruct (decide (x ∈ acc)) as [Hin | Hout].
    + rewrite bool_decide_eq_true_2 by exact Hin.
      rewrite filter_cons_False by (intros Hn; exact (Hn Hin)).
      rewrite list_filter_filter_l; [reflexivity |].
      intros y Hy ->. exact (Hy Hin).
    + rewrite bool_decide_eq_false_2 by exact Hout.
      rewrite filter_cons_True by exact Hout.
      rewrite <- app_assoc. cbn [app]. do 2 f_equal.
      rewrite list_filter_filter. apply list_filter_iff. intros y.
      rewrite not_elem_of_app, list_elem_of_singleton. tauto.
Qed.

Lemma Set_from_dedup (l : list value) : Set_from l = dedup_first l.
Proof.
  unfold Set_from. rewrite Set_from_acc. cbn [app].
  induction (dedup_first l) as [| y k IH]; [reflexivity |].
  rewrite filter_cons_True by apply not_elem_of_nil. rewrite IH. reflexivity.
Qed.

Lemma filter_dedup_first (P : value -> Prop) `{!forall v, Decision (P v)}
    (l : list value) :
  filter P (dedup_first l) = dedup_first (filter P l).
Proof.
  induction l as [| x l IH]; [reflexivity |].
  cbn [dedup_first]. destruct (decide (P x)) as [HP | HP].
  - rewrite !filter_cons_True by exact HP. cbn [dedup_first]. f_equal.
    rewrite <- IH, !list_filter_filter. apply list_filter_iff. intros y. tauto.
  - rewrite !filter_cons_False by exact HP. rewrite <- IH.
    apply list_filter_filter_l. intros y Hy ->. exact (HP Hy).
Qed.

Lemma elem_of_dedup_first (l : list value) (v : value) :
  v ∈ dedup_first l <-> v ∈ l.
Proof.
  induction l as [| x l IH]; [reflexivity |].
  cbn [dedup_first]. rewrite !elem_of_cons, list_elem_of_filter, IH.
  destruct (decide (v = x)); tauto.
Qed.

Lemma NoDup_dedup_first (l : list value) : NoDup (dedup_first l).
Proof.
  induction l as [| x l IH]; [constructor |].
  cbn [dedup_first]. apply NoDup_cons. split.
  - rewrite list_elem_of_filter. intros [Hne _]. exact (Hne eq_refl).
  - apply NoDup_filter. exact IH.
Qed.

Lemma sublist_dedup_first (l : list value) : dedup_first l `sublist_of` l.
Proof.
  induction l as [| x l IH]; [constructor |].
  cbn [dedup_first]. apply sublist_skip.
  etransitivity; [apply sublist_filter | exact IH].
Qed.

(** C5: [getUniqueValuesFromColumn] returns the values of the column without
    the undefined, null and empty-string entries and without duplicates, in
    the order of first occurrence: it equals the extractor of the
    specification, has no repeated entry, holds exactly the usable values of
    the column, keeps their relative order, and is empty when the column has
    no usable value; for the records [b, a, b, "", a] it is [b, a]. *)
Theorem getUniqueValuesFromColumn_pool (records : list Row) (header : string) :
  let values := map (fun record => get_field record header) records in
  let pool := getUniqueValuesFromColumn records header in
  pool = extractPool records header
  /\ NoDup pool
  /\ (forall v : value,
        v ∈ pool <-> v ∈ values /\ v <> VUndefined /\ v <> VNull /\ v <> VStr "")
  /\ pool `sublist_of` values
  /\ ((forall v : value, v ∈ values -> ~ usable v) -> pool = [])
  /\ getUniqueValuesFromColumn pool_example "c" = [VStr "b"; VStr "a"].
Proof.
  intros values pool.
  assert (Hpool : pool = filter usable (dedup_first values)).
  { unfold pool, getUniqueValuesFromColumn. fold values.
    rewrite Set_from_dedup. reflexivity. }
  assert (Hmem : forall v, v ∈ pool <-> v ∈ values /\ usable v).
  { intros v. rewrite Hpool, list_elem_of_filter, elem_of_dedup_first. tauto. }
  split; [| split; [| split; [| split; [| split]]]].
  - rewrite Hpool. unfold extractPool. fold values. apply filter_dedup_first.
  - rewrite Hpool. apply NoDup_filter, NoDup_dedup_first.
  - intros v. rewrite Hmem. unfold usable. tauto.
  - rewrite Hpool. etransitivity; [apply sublist_filter | apply sublist_dedup_first].
  - intros Hnone. destruct pool as [| v pool']; [reflexivity |].
    exfalso. destruct (proj1 (Hmem v) ltac:(left)) as [Hin Hus].
    exact (Hnone v Hin Hus).
  - vm_compute. reflexivity.
Qed.

Lemma getUniqueValuesFromColumn_pool_witness :
  (forall v : value,
      v ∈ map (fun record : Row => get_field record "c") [ {["c" := VStr ""]}; ∅ ] ->
      ~ usable v)
  /\ getUniqueValuesFromColumn [ {["c" := VStr ""]}; ∅ ] "c" = [].
Proof.
  assert (Hnone : forall v : value,
      v ∈ map (fun record : Row => get_field record "c") [ {["c" := VStr ""]}; ∅ ] ->
      ~ usable v).
  { intros v Hv [Hu [_ He]]. apply list_elem_of_In in Hv.
    destruct Hv as [Hv | [Hv | []]].
    - apply He. symmetry. exact Hv.
    - apply Hu. symmetry. exact Hv. }
  split; [exact Hnone |].
  exact (proj1 (proj2 (proj2 (proj2 (proj2
    (getUniqueValuesFromColumn_pool [ {["c" := VStr ""]}; ∅ ] "c"))))) Hnone).
Defined.

(** ** The builder: NumericFromList from source values *)

(** C6: when the user picks NumericFromList and the source values, the
    builder keeps of the pool exactly the entries that [Number] does not turn
    into NaN.  If some remain they are the list of the configuration and no
    list is asked for: the pool [1, 2, abc, 3] gives [1, 2, 3].  If none
    remains, as for the pool [abc], the builder writes its message to the
    console, asks for a typed list and returns the configuration whose list
    is [Number] of each comma-separated piece of what was typed: typing
    [7,8] gives [7, 8]. *)
Theorem numeric_from_source (header : string) (records : list Row)
    (answers : Answers) :
  generationType answers = NumericFromList -> useSource answers = true ->
  let pool := getUniqueValuesFromColumn records header in
  let numericValues := filter (fun n => isNaN n = false) (map Number pool) in
  let typed := map (fun piece => VNum (StringToNumber piece))
                   (split ","%char (numericList answers)) in
  let config := fst (configureColumn header records answers) in
  let events := snd (configureColumn header records answers) in
  cfg_header config = header /\ cfg_type config = "2"
  /\ (forall n : number,
        n ∈ numericValues <-> isNaN n = false /\ exists v, v ∈ pool /\ Number v = n)
  /\ (numericValues <> [] ->
      cfg_list config = Some (map VNum numericValues)
      /\ events = [Prompt ["generationType"]; Prompt ["useSource"];
                   Log ("Using " +:+ pretty (length numericValues) +:+
                        " unique numeric values from source column.")])
  /\ (numericValues = [] ->
      cfg_list config = Some typed
      /\ events = [Prompt ["generationType"]; Prompt ["useSource"];
                   Log no_numeric_message; Prompt ["numericList"]])
  /\ (pool = [VStr "1"; VStr "2"; VStr "abc"; VStr "3"] ->
      cfg_list config
      = Some [VNum (Num (of_Z 1)); VNum (Num (of_Z 2)); VNum (Num (of_Z 3))]
      /\ (Log no_numeric_message ∉ events) /\ (Prompt ["numericList"] ∉ events))
  /\ (pool = [VStr "abc"] ->
      events = [Prompt ["generationType"]; Prompt ["useSource"];
                Log no_numeric_message; Prompt ["numericList"]]
      /\ cfg_list config = Some typed
      /\ (numericList answers = "7,8" ->
          cfg_list config = Some [VNum (Num (of_Z 7)); VNum (Num (of_Z 8))])).
Proof.
  intros Hgen Huse pool numericValues typed config events.
  assert (Hrun : configureColumn header records answers =
    if bool_decide (length numericValues = 0%nat) then
      (set_list (base_config header "2") typed,
       [Prompt ["generationType"]; Prompt ["useSource"];
        Log no_numeric_message; Prompt ["numericList"]])
    else
      (set_list (base_config header "2") (map VNum numericValues),
       [Prompt ["generationType"]; Prompt ["useSource"];
        Log ("Using " +:+ pretty (length numericValues) +:+
             " unique numeric values from source column.")])).
  { unfold configureColumn. rewrite Hgen, Huse.
    change (fun val : value => Number val) with Number.
    fold pool. fold numericValues.
    cbn [type_tag]. destruct (bool_decide (length numericValues = 0%nat)); reflexivity. }
  assert (Hempty : numericValues = [] ->
    cfg_list config = Some typed
    /\ events = [Prompt ["generationType"]; Prompt ["useSource"];
                 Log no_numeric_message; Prompt ["numericList"]]).
  { intros Hnil. unfold config, events. rewrite Hrun, Hnil. split; reflexivity. }
  assert (Hsome : numericValues <> [] ->
    cfg_list config = Some (map VNum numericValues)
    /\ events = [Prompt ["generationType"]; Prompt ["useSource"];
                 Log ("Using " +:+ pretty (length numericValues) +:+
                      " unique numeric values from source column.")]).
  { intros Hne. unfold config, events. rewrite Hrun.
    rewrite bool_decide_eq_false_2
      by (intros Hl; apply Hne; destruct numericValues; [reflexivity | discriminate]).
    split; reflexivity. }
  split; [| split; [| split; [| split; [exact Hsome | split; [exact Hempty | split]]]]].
  - unfold config. rewrite Hrun.
    destruct (bool_decide (length numericValues = 0%nat)); reflexivity.
  - unfold config. rewrite Hrun.
    destruct (bool_decide (length numericValues = 0%nat)); reflexivity.
  - intros n. unfold numericValues. rewrite list_elem_of_filter. split.
    + intros [Hn Hin]. split; [exact Hn |].
      apply list_elem_of_In, in_map_iff in Hin. destruct Hin as (v & H1 & H2).
      exists v. split; [apply list_elem_of_In; exact H2 | exact H1].
    + intros [Hn (v & H2 & H1)]. split; [exact Hn |].
      apply list_elem_of_In, in_map_iff. exists v.
      split; [exact H1 | apply list_elem_of_In; exact H2].
  - intros Hp.
    assert (Hnum : numericValues = [Num (of_Z 1); Num (of_Z 2); Num (of_Z 3)])
      by (unfold numericValues; rewrite Hp; reflexivity).
    destruct Hsome as [Hl Hev]; [rewrite Hnum; discriminate |].
    rewrite Hl, Hev, Hnum. split; [reflexivity |].
    split; intros Hin; apply list_elem_of_In in Hin;
      destruct Hin as [H | [H | [H | []]]]; discriminate H.
  - intros Hp. destruct Hempty as [Hl Hev].
    + unfold numericValues. rewrite Hp. reflexivity.
    + split; [exact Hev | split; [exact Hl |]].
      intros Htyped. rewrite Hl. unfold typed. rewrite Htyped. reflexivity.
Qed.

Lemma numeric_from_source_witness :
  generationType (numeric_answers "7,8") = NumericFromList
  /\ useSource (numeric_answers "7,8") = true
  /\ getUniqueValuesFromColumn numeric_records "c"
     = [VStr "1"; VStr "2"; VStr "abc"; VStr "3"]
  /\ cfg_list (fst (configureColumn "c" numeric_records (numeric_answers "7,8")))
     = Some [VNum (Num (of_Z 1)); VNum (Num (of_Z 2)); VNum (Num (of_Z 3))]
  /\ getUniqueValuesFromColumn abc_records "c" = [VStr "abc"]
  /\ numericList (numeric_answers "7,8") = "7,8"
  /\ cfg_list (fst (configureColumn "c" abc_records (numeric_answers "7,8")))
     = Some [VNum (Num (of_Z 7)); VNum (Num (of_Z 8))]
  /\ snd (configureColumn "c" abc_records (numeric_answers "7,8"))
     = [Prompt ["generationType"]; Prompt ["useSource"];
        Log no_numeric_message; Prompt ["numericList"]].
Proof.
  assert (Hpool : getUniqueValuesFromColumn numeric_records "c"
                  = [VStr "1"; VStr "2"; VStr "abc"; VStr "3"])
    by (vm_compute; reflexivity).
  assert (Habc : getUniqueValuesFromColumn abc_records "c" = [VStr "abc"])
    by (vm_compute; reflexivity).
  pose proof (numeric_from_source "c" numeric_records (numeric_answers "7,8")
                eq_refl eq_refl) as (_ & _ & _ & _ & _ & Hfirst & _).
  pose proof (numeric_from_source "c" abc_records (numeric_answers "7,8")
                eq_refl eq_refl) as (_ & _ & _ & _ & _ & _ & Hsecond).
  split; [reflexivity | split; [reflexivity | split; [exact Hpool |]]].
  split; [exact (proj1 (Hfirst Hpool)) | split; [exact Habc |]].
  split; [reflexivity |].
  split; [exact (proj2 (proj2 (Hsecond Habc)) eq_refl)
         | exact (proj1 (Hsecond Habc))].
Defined.

(** ** The builder: what it checks *)


Lemma array_get_of_Z (l : list value) (k : Z) :
  0 <= k -> array_get l (Num (of_Z k)) = nth (Z.to_nat k) l VUndefined.
Proof.
  intros Hk. rewrite <- (array_get_of_nat l (Z.to_nat k)).
  unfold of_nat. rewrite Z2Nat.id by exact Hk. reflexivity.
Qed.

Lemma random_index (l : list value) (s : Rng) :
  getRandomFromList (Some l) s
  = Ok (array_get l (Num (of_Z (Qfloor (draws s (pos s) * of_nat (length l))%Qc))))
       (advance s).
Proof. reflexivity. Qed.

Lemma list_column (i : nat) (config : ColumnConfig) (record : Row) (s : Rng) :
  cfg_type config = "2" \/ cfg_type config = "3" ->
  generateColumn i config record s
  = match getRandomFromList (cfg_list config) s with
    | Ok v s' => Ok (<[cfg_header config := v]> record) s'
    | Throw e => Throw e
    | Diverge => Diverge
    end.
Proof. intros [Ht | Ht]; unfold generateColumn; rewrite Ht; reflexivity. Qed.

Lemma random_pick (l : list value) (s : Rng) :
  valid_rng s -> l <> [] ->
  exists v : value, getRandomFromList (Some l) s = Ok v (advance s) /\ v ∈ l.
Proof.
  intros Hs Hne. destruct (Hs (pos s)) as [H0 H1].
  assert (Hlen : 0 < Z.of_nat (length l)) by (destruct l; [congruence | cbn; lia]).
  pose proof (floor_scale_bounds (draws s (pos s)) (Z.of_nat (length l)) H0 H1 Hlen)
    as Hk. fold (of_nat (length l)) in Hk.
  set (k := Qfloor (draws s (pos s) * of_nat (length l))%Qc) in *.
  exists (nth (Z.to_nat k) l VUndefined). split.
  - rewrite random_index. fold k. rewrite array_get_of_Z by lia. reflexivity.
  - apply list_elem_of_In, nth_In. lia.
Qed.










(** ** The builder: NumericRange *)

(** C8, as amended: for NumericRange the builder compares nothing: whatever
    the two numbers typed, in whatever order, it asks the two questions and
    returns the configuration that carries them as [min] and [max], which the
    row loop then hands to [getRandomNumber]. *)
Theorem configureColumn_range_unchecked (header : string) (records : list Row)
    (answers : Answers) :
  generationType answers = NumericRange ->
  configureColumn header records answers
  = ({| cfg_header := header; cfg_type := "1";
        cfg_min := ans_min answers; cfg_max := ans_max answers;
        cfg_list := None; cfg_length := NaN; cfg_prefix := "undefined";
        cfg_start := NaN; cfg_step := NaN |},
     [Prompt ["generationType"]; Prompt ["min"; "max"]])
  /\ forall (i : nat) (record : Row) (s : Rng),
       generateColumn i (fst (configureColumn header records answers)) record s
       = (v ← getRandomNumber (ans_min answers) (ans_max answers);
          mret (<[header := VNum v]> record)) s.
Proof.
  intros Hg.
  assert (Hrun : configureColumn header records answers
    = ({| cfg_header := header; cfg_type := "1";
          cfg_min := ans_min answers; cfg_max := ans_max answers;
          cfg_list := None; cfg_length := NaN; cfg_prefix := "undefined";
          cfg_start := NaN; cfg_step := NaN |},
       [Prompt ["generationType"]; Prompt ["min"; "max"]])).
  { unfold configureColumn. rewrite Hg. reflexivity. }
  split; [exact Hrun |].
  intros i record s. rewrite Hrun. reflexivity.
Qed.

Lemma configureColumn_range_unchecked_witness :
  generationType (range_answers (Num (of_Z 5)) (Num (of_Z 1))) = NumericRange
  /\ cfg_min (fst (configureColumn "n" pool_example
                     (range_answers (Num (of_Z 5)) (Num (of_Z 1))))) = Num (of_Z 5)
  /\ cfg_max (fst (configureColumn "n" pool_example
                     (range_answers (Num (of_Z 5)) (Num (of_Z 1))))) = Num (of_Z 1).
Proof.
  split; [reflexivity |].
  rewrite (proj1 (configureColumn_range_unchecked "n" pool_example
                    (range_answers (Num (of_Z 5)) (Num (of_Z 1))) eq_refl)).
  split; reflexivity.
Defined.

(** C8 as stated fails: with [min = 5] and [max = 1] the builder returns the
    configuration, and the row loop generates from it; the draw [1/2] gives
    [floor(0.5 * (1 - 5 + 1)) + 5 = 3]. *)
Lemma inverted_range_accepted :
  ~ (of_Z 5 <= of_Z 1)%Qc
  /\ configureColumn "n" pool_example (range_answers (Num (of_Z 5)) (Num (of_Z 1)))
     = ({| cfg_header := "n"; cfg_type := "1";
           cfg_min := Num (of_Z 5); cfg_max := Num (of_Z 1);
           cfg_list := None; cfg_length := NaN; cfg_prefix := "undefined";
           cfg_start := NaN; cfg_step := NaN |},
        [Prompt ["generationType"]; Prompt ["min"; "max"]])
  /\ generateData
       [fst (configureColumn "n" pool_example
               (range_answers (Num (of_Z 5)) (Num (of_Z 1))))]
       (Num (of_Z 1)) (rng0 half)
     = Ok [ {["n" := VNum (Num (of_Z 3))]} ] (advance (rng0 half)).
Proof.
  split; [Qc_closed |]. split; [reflexivity |]. vm_compute. reflexivity.
Qed.

(** ** The row loop: how many records, and what stops it *)

Lemma getRandomString_loop_total (n : nat) (result : string) (s : Rng) :
  exists str, getRandomString_loop n result s = Ok str (advance_by n s).
Proof.
  revert result s. induction n as [| n IH]; intros result s.
  - exists result. unfold advance_by. rewrite Nat.add_0_r. destruct s; reflexivity.
  - cbn [getRandomString_loop]. unfold mbind, M_bind, Math_random.
    fold (advance s).
    destruct (IH (result +:+ charAt chars
                    (Math_floor (num_mul (Num (draws s (pos s)))
                                   (Num (of_nat (String.length chars))))))
                 (advance s)) as (str & Hstr).
    exists str. rewrite Hstr. unfold advance_by, advance. cbn [pos draws].
    do 2 f_equal. lia.
Qed.

Lemma getRandomString_total (len : number) (s : Rng) :
  len <> Inf false -> exists str s', getRandomString len s = Ok str s'.
Proof.
  intros Hlen. unfold getRandomString.
  destruct (for_count len) as [n |] eqn:E.
  - destruct (getRandomString_loop_total n "" s) as (str & H). eauto.
  - destruct len as [| [|] | q]; try discriminate E. congruence.
Qed.

Lemma generateColumn_total (i : nat) (config : ColumnConfig) (record : Row)
    (s : Rng) :
  well_formed config -> exists record' s', generateColumn i config record s = Ok record' s'.
Proof.
  intros [Hlist Hlen]. unfold generateColumn.
  repeat case_bool_decide; try (eexists; eexists; reflexivity).
  - destruct (cfg_list config) as [l |] eqn:El.
    + eexists; eexists; reflexivity.
    + exfalso. apply Hlist; [| reflexivity].
      match goal with H : _ \/ _ |- _ => destruct H as [-> | ->] end;
        apply list_elem_of_In; simpl; auto.
  - destruct (getRandomString_total (cfg_length config) s) as (str & s' & Hrs).
    + apply Hlen. match goal with H : cfg_type config = _ |- _ => rewrite H end.
      apply list_elem_of_In; simpl; auto.
    + unfold mbind, M_bind. rewrite Hrs. eexists; eexists; reflexivity.
  - destruct (cfg_list config) as [l |] eqn:El.
    + eexists; eexists; reflexivity.
    + exfalso. apply Hlist; [| reflexivity].
      match goal with H : cfg_type config = _ |- _ => rewrite H end.
      apply list_elem_of_In; simpl; auto.
  - destruct (getRandomString_total (cfg_length config) s) as (str & s' & Hrs).
    + apply Hlen. match goal with H : cfg_type config = _ |- _ => rewrite H end.
      apply list_elem_of_In; simpl; auto.
    + unfold getRandomStringWithPrefix, mbind, M_bind. rewrite Hrs.
      eexists; eexists; reflexivity.
Qed.

Lemma generateRecord_total (i : nat) (configs : list ColumnConfig) (record : Row)
    (s : Rng) :
  Forall well_formed configs ->
  exists record' s', generateRecord i configs record s = Ok record' s'.
Proof.
  intros Hwf. revert record s.
  induction Hwf as [| config configs Hc _ IH]; intros record s.
  - eexists; eexists; reflexivity.
  - cbn [generateRecord]. unfold mbind, M_bind at 1.
    destruct (generateColumn_total i config record s Hc) as (r' & s' & H).
    rewrite H. apply IH.
Qed.

Lemma generateRows_total (configs : list ColumnConfig) (n i : nat)
    (outputData : list Row) (s : Rng) :
  Forall well_formed configs ->
  exists rows s', generateRows configs n i outputData s = Ok rows s'
                  /\ length rows = (length outputData + n)%nat.
Proof.
  intros Hwf. revert i outputData s.
  induction n as [| n IH]; intros i outputData s.
  - exists outputData, s. split; [reflexivity | lia].
  - cbn [generateRows]. unfold mbind, M_bind at 1.
    destruct (generateRecord_total i configs ∅ s Hwf) as (r & s1 & H).
    rewrite H.
    destruct (IH (S i) (outputData ++ [r]) s1) as (rows & s' & Hrun & Hlen).
    exists rows, s'. split; [exact Hrun |].
    rewrite Hlen, length_app. simpl. lia.
Qed.

Lemma for_count_nonpositive (q : Qc) : (q <= of_Z 0)%Qc -> for_count (Num q) = Some 0%nat.
Proof.
  unfold Qcle. rewrite this_of_Z. intros Hq. unfold for_count.
  apply Qceiling_resp_le in Hq. rewrite Qceiling_Z in Hq.
  f_equal. lia.
Qed.

Lemma parseInt_integer (input : string) :
  parseInt input = NaN \/ exists z : Z, parseInt input = Num (of_Z z).
Proof.
  unfold parseInt.
  destruct (match trim_start input with
            | String "-"%char t => (true, t)
            | String "+"%char t => (false, t)
            | _ => (false, trim_start input)
            end) as [neg s1].
  destruct (match s1 with
            | String "0"%char (String c t) =>
                if bool_decide (c = "x"%char \/ c = "X"%char) then (16, t) else (10, s1)
            | _ => (10, s1)
            end) as [radix s2].
  destruct (digits radix s2 0 0) as [[v [| n]] rest]; [left | right; eexists]; reflexivity.
Qed.

Lemma of_Z_le (x y : Z) : (of_Z x <= of_Z y)%Qc <-> x <= y.
Proof. unfold Qcle. rewrite !this_of_Z, <- Zle_Qle. reflexivity. Qed.

(** C9, as amended: the row loop never fails on the row count.  For a count
    that is zero, negative or NaN its body never runs and the output table is
    empty; for a positive integer count and configurations that neither throw
    nor loop it returns exactly that many records.  The only check of the
    count is the [validate] of the custom row-count question, which accepts a
    typed count only if it parses to a positive integer. *)
Theorem generateData_row_count (configs : list ColumnConfig) (s : Rng) :
  (forall q : Qc, (q <= of_Z 0)%Qc -> generateData configs (Num q) s = Ok [] s)
  /\ generateData configs NaN s = Ok [] s
  /\ (forall n : nat,
        (0 < n)%nat -> Forall well_formed configs ->
        exists rows s',
          generateData configs (Num (of_nat n)) s = Ok rows s' /\ length rows = n)
  /\ (forall input : string,
        customRecords_validate input = Valid ->
        exists n : nat, (0 < n)%nat /\ customRecords_filter input = Num (of_nat n))
  /\ (forall (input : string) (q : Qc),
        customRecords_filter input = Num q -> (q <= of_Z 0)%Qc ->
        customRecords_validate input = Invalid "Please enter a valid positive number").
Proof.
  split; [| split; [| split; [| split]]].
  - intros q Hq. unfold generateData. rewrite for_count_nonpositive by exact Hq.
    reflexivity.
  - reflexivity.
  - intros n _ Hwf. unfold generateData. rewrite for_count_of_nat.
    destruct (generateRows_total configs n 0 [] s Hwf) as (rows & s' & Hrun & Hlen).
    exists rows, s'. split; [exact Hrun | exact Hlen].
  - intros input. unfold customRecords_validate, customRecords_filter.
    destruct (parseInt_integer input) as [-> | [z ->]]; [discriminate |].
    cbn [isNaN orb num_leb]. case_bool_decide as Hz; [discriminate |].
    intros _. rewrite of_Z_le in Hz. exists (Z.to_nat z).
    split; [lia |]. unfold of_nat. rewrite Z2Nat.id by lia. reflexivity.
  - intros input q. unfold customRecords_validate, customRecords_filter.
    intros -> Hq. cbn [isNaN orb num_leb].
    rewrite bool_decide_eq_true_2 by exact Hq. reflexivity.
Qed.

Lemma well_formed_cyc_xy : well_formed cyc_xy.
Proof.
  split; [discriminate |].
  intros H. apply list_elem_of_In in H. simpl in H.
  destruct H as [H | [H | []]]; discriminate H.
Defined.

Ltac builder_cases answers :=
  repeat match goal with
         | |- context [alpha_from_source ?c ?p ?a] =>
             unfold alpha_from_source; destruct (bool_decide (length p = 0%nat))
         | |- context [if useSource answers then _ else _] =>
             destruct (useSource answers)
         | |- context [bool_decide ?P] => destruct (bool_decide P)
         end.

Lemma configureColumn_list_defined (header : string) (records : list Row)
    (answers : Answers) :
  list_based (generationType answers) = true ->
  cfg_list (fst (configureColumn header records answers)) <> None.
Proof.
  intros Hg. unfold configureColumn.
  destruct (generationType answers); try discriminate Hg;
    builder_cases answers; cbn; discriminate.
Qed.

(** What the builder returns is such a configuration, unless the user asks
    for strings of infinite length. *)
Lemma configureColumn_well_formed (header : string) (records : list Row)
    (answers : Answers) :
  ans_length answers <> Inf false ->
  well_formed (fst (configureColumn header records answers)).
Proof.
  intros Hlen.
  destruct (list_based (generationType answers)) eqn:Hg.
  - split; [intros _; apply configureColumn_list_defined; exact Hg |].
    intros Ht. exfalso. apply list_elem_of_In in Ht. revert Ht.
    unfold configureColumn. destruct (generationType answers); try discriminate Hg;
      builder_cases answers;
      cbn; intros [Ht | [Ht | []]]; discriminate Ht.
  - unfold configureColumn.
    destruct (generationType answers); try discriminate Hg; cbn;
      (split; [intros Ht; apply list_elem_of_In in Ht; cbn in Ht;
               destruct Ht as [Ht | [Ht | [Ht | []]]]; discriminate Ht
              | intros _; exact Hlen || discriminate]).
Qed.

Lemma generateData_row_count_witness :
  (of_Z (-3) <= of_Z 0)%Qc
  /\ generateData [cyc_xy] (Num (of_Z (-3))) (rng0 half) = Ok [] (rng0 half)
  /\ (0 < 3)%nat /\ Forall well_formed [cyc_xy]
  /\ (exists rows s',
        generateData [cyc_xy] (Num (of_nat 3)) (rng0 half) = Ok rows s'
        /\ length rows = 3%nat)
  /\ customRecords_validate "250" = Valid
  /\ (exists n : nat, (0 < n)%nat /\ customRecords_filter "250" = Num (of_nat n))
  /\ customRecords_filter "-4" = Num (of_Z (-4))
  /\ customRecords_validate "-4" = Invalid "Please enter a valid positive number".
Proof.
  assert (Hq : (of_Z (-3) <= of_Z 0)%Qc) by Qc_closed.
  assert (Hq4 : (of_Z (-4) <= of_Z 0)%Qc) by Qc_closed.
  assert (Hn : (0 < 3)%nat) by lia.
  assert (Hwf : Forall well_formed [cyc_xy])
    by (constructor; [exact well_formed_cyc_xy | constructor]).
  assert (Hv : customRecords_validate "250" = Valid) by reflexivity.
  assert (Hf : customRecords_filter "-4" = Num (of_Z (-4))) by reflexivity.
  pose proof (generateData_row_count [cyc_xy] (rng0 half))
    as (Hzero & _ & Hpos & Hvalid & Hinvalid).
  split; [exact Hq |].
  split; [exact (Hzero _ Hq) |].
  split; [exact Hn | split; [exact Hwf |]].
  split; [exact (Hpos 3%nat Hn Hwf) |].
  split; [exact Hv | split; [exact (Hvalid "250" Hv) |]].
  split; [exact Hf | exact (Hinvalid "-4" _ Hf Hq4)].
Defined.

(** C9 as stated fails: a row count of zero, or the negative row count of a
    template, is not refused; the loop body never runs and the output table
    is the empty table. *)
Lemma nonpositive_row_count_accepted :
  generateData [cyc_xy] (Num (of_Z 0)) (rng0 half) = Ok [] (rng0 half)
  /\ (of_Z (-3) <= of_Z 0)%Qc
  /\ generateFromTemplate
       {| name := "t"; sourceFile := "source.csv";
          columnConfigurations := [cyc_xy]; numRecords := Num (of_Z (-3));
          includeHeader := true |} (rng0 half)
     = Ok [] (rng0 half).
Proof.
  split; [vm_compute; reflexivity |]. split; [Qc_closed |]. vm_compute. reflexivity.
Qed.

(** ** The row loop: a type it does not know *)

Lemma unrecognized_column (i : nat) (config : ColumnConfig) (record : Row) (s : Rng) :
  ~ recognized (cfg_type config) -> generateColumn i config record s = Ok record s.
Proof.
  intros Hn. unfold generateColumn.
  repeat case_bool_decide; try reflexivity; exfalso; apply Hn; unfold recognized;
    repeat match goal with
           | H : _ \/ _ |- _ => destruct H as [H | H]
           | H : cfg_type config = _ |- _ => rewrite H; clear H
           end;
    apply list_elem_of_In; simpl; auto 10.
Qed.

Lemma unrecognized_record (i : nat) (config : ColumnConfig)
    (pre post : list ColumnConfig) (record : Row) (s : Rng) :
  ~ recognized (cfg_type config) ->
  generateRecord i (pre ++ config :: post) record s
  = generateRecord i (pre ++ post) record s.
Proof.
  intros Hn. revert record s. induction pre as [| c pre IH]; intros record s.
  - cbn [app generateRecord]. unfold mbind, M_bind at 1.
    rewrite unrecognized_column by exact Hn. reflexivity.
  - cbn [app generateRecord]. unfold mbind, M_bind.
    destruct (generateColumn i c record s); [apply IH | reflexivity | reflexivity].
Qed.

Lemma unrecognized_rows (config : ColumnConfig) (pre post : list ColumnConfig)
    (n i : nat) (outputData : list Row) (s : Rng) :
  ~ recognized (cfg_type config) ->
  generateRows (pre ++ config :: post) n i outputData s
  = generateRows (pre ++ post) n i outputData s.
Proof.
  intros Hn. revert i outputData s. induction n as [| n IH]; intros i outputData s.
  - reflexivity.
  - cbn [generateRows]. unfold mbind, M_bind.
    rewrite unrecognized_record by exact Hn.
    destruct (generateRecord i (pre ++ post) ∅ s); [apply IH | reflexivity | reflexivity].
Qed.

Lemma no_column_rows (n i : nat) (outputData : list Row) (s : Rng) :
  generateRows [] n i outputData s = Ok (outputData ++ repeat ∅ n) s.
Proof.
  revert i outputData. induction n as [| n IH]; intros i outputData.
  - cbn. rewrite app_nil_r. reflexivity.
  - cbn [generateRows generateRecord]. unfold mbind, M_bind, mret, M_ret.
    rewrite IH, <- app_assoc. reflexivity.
Qed.

(** C10, as amended: a configuration whose type is none of ['1' .. '7'] does
    not stop the row loop.  No [case] matches, so the record is left as it
    was and no draw is consumed; the output is the one the other
    configurations give alone, with records that omit the column; alone, the
    configuration yields empty records.  What does stop the loop is a
    list-reading configuration without a list: it throws a TypeError. *)
Theorem unrecognized_type_skipped (config : ColumnConfig) :
  ~ recognized (cfg_type config) ->
  (forall (i : nat) (record : Row) (s : Rng),
      generateColumn i config record s = Ok record s)
  /\ (forall (pre post : list ColumnConfig) (numRecords : number) (s : Rng),
        generateData (pre ++ config :: post) numRecords s
        = generateData (pre ++ post) numRecords s)
  /\ (forall (n : nat) (s : Rng),
        generateData [config] (Num (of_nat n)) s = Ok (repeat ∅ n) s)
  /\ (forall (other : ColumnConfig) (i : nat) (record : Row) (s : Rng),
        cfg_type other ∈ ["2"; "3"; "6"] -> cfg_list other = None ->
        exists e, generateColumn i other record s = Throw e).
Proof.
  intros Hn. split; [| split; [| split]].
  - intros i record s. apply unrecognized_column. exact Hn.
  - intros pre post numRecords s. unfold generateData.
    destruct (for_count numRecords); [| reflexivity].
    apply unrecognized_rows. exact Hn.
  - intros n s. unfold generateData. rewrite for_count_of_nat.
    etransitivity; [exact (unrecognized_rows config [] [] n 0 [] s Hn) |].
    apply no_column_rows.
  - intros other i record s Ht Hl. unfold generateColumn.
    apply list_elem_of_In in Ht. simpl in Ht.
    destruct Ht as [Ht | [Ht | [Ht | []]]]; rewrite <- Ht, Hl; eexists; reflexivity.
Qed.

Lemma unrecognized_8 : ~ recognized "8".
Proof.
  intros H. apply list_elem_of_In in H. simpl in H.
  repeat (destruct H as [H | H]; [discriminate H |]). exact H.
Defined.

Lemma unrecognized_type_skipped_witness :
  ~ recognized (cfg_type ghost_cfg)
  /\ generateData [ghost_cfg] (Num (of_nat 2)) (rng0 half) = Ok [∅; ∅] (rng0 half).
Proof.
  split; [exact unrecognized_8 |].
  exact (proj1 (proj2 (proj2 (unrecognized_type_skipped ghost_cfg unrecognized_8)))
           2%nat (rng0 half)).
Defined.

(** C10 as stated fails: with the type ['8'] on the column [ghost] the loop
    does not fail; it returns its two records, which hold the cyclic column
    [c] and omit [ghost]. *)
Lemma malformed_type_not_rejected :
  ~ recognized (cfg_type ghost_cfg)
  /\ generateData [ghost_cfg; cyc_xy] (Num (of_Z 2)) (rng0 half)
     = Ok [ {["c" := VStr "x"]}; {["c" := VStr "y"]} ] (rng0 half)
  /\ ({["c" := VStr "x"]} : Row) !! "ghost" = None.
Proof.
  split; [exact unrecognized_8 |]. split; vm_compute; reflexivity.
Qed.

(** * Further properties of the code *)

(** ** The random helpers *)

(** X3: on a non-empty list and a draw of [0, 1), [getRandomFromList] takes
    one draw and returns an element of the list, which is the cell the row
    loop writes for a type-2 or type-3 column; on the empty list it returns
    [undefined], whatever the draw. *)
Theorem getRandomFromList_member (l : list value) (s : Rng) :
  getRandomFromList (Some []) s = Ok VUndefined (advance s)
  /\ (valid_rng s -> l <> [] ->
      exists v : value,
        getRandomFromList (Some l) s = Ok v (advance s) /\ v ∈ l
        /\ forall (i : nat) (config : ColumnConfig) (record : Row),
             cfg_type config = "2" \/ cfg_type config = "3" ->
             cfg_list config = Some l ->
             generateColumn i config record s
             = Ok (<[cfg_header config := v]> record) (advance s)).
Proof.
  split.
  - rewrite random_index. f_equal.
    assert (Hz : Qfloor (draws s (pos s) * of_nat (length (@nil value)))%Qc = 0).
    { change (of_nat (length (@nil value))) with (of_Z 0).
      rewrite this_mult, this_of_Z.
      transitivity (Qfloor (inject_Z 0)); [apply Qfloor_comp | apply Qfloor_Z].
      change (inject_Z 0) with 0%Q. ring. }
    rewrite Hz. apply (array_get_of_Z [] 0). lia.
  - intros Hs Hne. destruct (random_pick l s Hs Hne) as (v & Hrun & Hin).
    exists v. split; [exact Hrun | split; [exact Hin |]].
    intros i config record Ht Hl.
    rewrite list_column by exact Ht. rewrite Hl, Hrun. reflexivity.
Qed.

Lemma getRandomFromList_member_witness :
  valid_rng (rng0 half) /\ [VStr "p"; VStr "q"] <> []
  /\ exists v : value,
       getRandomFromList (Some [VStr "p"; VStr "q"]) (rng0 half)
       = Ok v (advance (rng0 half))
       /\ v ∈ [VStr "p"; VStr "q"].
Proof.
  assert (Hs : valid_rng (rng0 half)) by (apply valid_rng0; Qc_closed).
  assert (Hne : [VStr "p"; VStr "q"] <> []) by discriminate.
  split; [exact Hs | split; [exact Hne |]].
  destruct (proj2 (getRandomFromList_member [VStr "p"; VStr "q"] (rng0 half)) Hs Hne)
    as (v & Hrun & Hin & _).
  exists v. split; [exact Hrun | exact Hin].
Defined.

Lemma Qceiling_positive (q : Qc) : (of_Z 0 < q)%Qc -> 0 < Qceiling q.
Proof.
  unfold Qclt. rewrite this_of_Z. intros Hq.
  pose proof (Qle_ceiling q) as Hc. rewrite Zlt_Qlt.
  eapply Qlt_le_trans; [exact Hq | exact Hc].
Qed.

(** X4: [getRandomString] accepts any number as length.  NaN, [-Infinity]
    and every length [<= 0] give the empty string and take no draw (so the
    prefixed variant returns the bare prefix); a positive length that is not
    an integer is rounded up: the string has [ceil(length)] alphanumeric
    characters; [+Infinity] never returns. *)
Theorem getRandomString_any_length (s : Rng) :
  getRandomString NaN s = Ok "" s
  /\ getRandomString (Inf true) s = Ok "" s
  /\ getRandomString (Inf false) s = Diverge
  /\ (forall q : Qc, (q <= of_Z 0)%Qc ->
        getRandomString (Num q) s = Ok "" s
        /\ forall prefix : string,
             getRandomStringWithPrefix prefix (Num q) s = Ok prefix s)
  /\ (forall q : Qc, valid_rng s -> (of_Z 0 < q)%Qc ->
        exists str : string,
          getRandomString (Num q) s = Ok str (advance_by (Z.to_nat (Qceiling q)) s)
          /\ Z.of_nat (String.length str) = Qceiling q
          /\ Forall (fun c => In c alphabet) (list_ascii_of_string str)).
Proof.
  split; [reflexivity | split; [reflexivity | split; [reflexivity | split]]].
  - intros q Hq.
    assert (Hrun : getRandomString (Num q) s = Ok "" s).
    { unfold getRandomString. rewrite for_count_nonpositive by exact Hq. reflexivity. }
    split; [exact Hrun |].
    intros prefix. unfold getRandomStringWithPrefix, mbind, M_bind.
    rewrite Hrun. cbn [mret M_ret]. rewrite append_nil_r. reflexivity.
  - intros q Hs Hq. pose proof (Qceiling_positive q Hq) as Hc.
    destruct (getRandomString_loop_spec (Z.to_nat (Qceiling q)) "" s Hs)
      as (str & Hrun & Hlen & Hall).
    exists str. split; [exact Hrun | split; [| exact Hall]].
    rewrite Hlen. apply Z2Nat.id. lia.
Qed.

Lemma getRandomString_any_length_witness :
  (of_Z (-2) <= of_Z 0)%Qc
  /\ getRandomString (Num (of_Z (-2))) (rng0 half) = Ok "" (rng0 half)
  /\ valid_rng (rng0 half) /\ (of_Z 0 < Q2Qc (5 # 2))%Qc
  /\ exists str : string,
       getRandomString (Num (Q2Qc (5 # 2))) (rng0 half)
       = Ok str (advance_by (Z.to_nat (Qceiling (Q2Qc (5 # 2)))) (rng0 half))
       /\ Z.of_nat (String.length str) = Qceiling (Q2Qc (5 # 2)).
Proof.
  assert (Hneg : (of_Z (-2) <= of_Z 0)%Qc) by Qc_closed.
  assert (Hs : valid_rng (rng0 half)) by (apply valid_rng0; Qc_closed).
  assert (Hpos : (of_Z 0 < Q2Qc (5 # 2))%Qc) by Qc_closed.
  pose proof (getRandomString_any_length (rng0 half)) as (_ & _ & _ & Hle & Hgt).
  split; [exact Hneg | split; [exact (proj1 (Hle _ Hneg)) |]].
  split; [exact Hs | split; [exact Hpos |]].
  destruct (Hgt _ Hs Hpos) as (str & Hrun & Hlen & _).
  exists str. split; [exact Hrun | exact Hlen].
Defined.

(** ** The row loop: shape of the output *)

Lemma advance_by_0 (s : Rng) : advance_by 0 s = s.
Proof. unfold advance_by. rewrite Nat.add_0_r. destruct s; reflexivity. Qed.

Lemma advance_by_1 (s : Rng) : advance s = advance_by 1 s.
Proof. unfold advance, advance_by. f_equal. lia. Qed.

Lemma advance_by_add (a b : nat) (s : Rng) :
  advance_by b (advance_by a s) = advance_by (a + b) s.
Proof. unfold advance_by. cbn [draws pos]. f_equal. lia. Qed.

Lemma written_headers_cons (config : ColumnConfig) (configs : list ColumnConfig) :
  written_headers (config :: configs) = key_of config ∪ written_headers configs.
Proof.
  unfold written_headers, key_of. rewrite filter_cons.
  destruct (decide (stores config)); cbn [map list_to_set]; set_solver.
Qed.

Lemma type_cases (t : string) :
  t = "1" \/ t = "2" \/ t = "3" \/ t = "4" \/ t = "5" \/ t = "6" \/ t = "7"
  \/ ~ recognized t.
Proof.
  destruct (decide (recognized t)) as [H | H]; [| repeat right; exact H].
  unfold recognized in H. apply list_elem_of_In in H. simpl in H. intuition.
Qed.

Lemma recognized_in (t : string) :
  In t ["1"; "2"; "3"; "4"; "5"; "6"; "7"] -> recognized t.
Proof. intros H. apply list_elem_of_In. exact H. Qed.

Lemma draws_of_unrecognized (config : ColumnConfig) :
  ~ recognized (cfg_type config) -> draws_of config = 0%nat.
Proof.
  intros Hn. unfold draws_of.
  repeat case_bool_decide; try reflexivity; exfalso; apply Hn, recognized_in;
    simpl; intuition.
Qed.

Lemma string_column_shape (len : number) (s : Rng) :
  len <> Inf false ->
  exists str, getRandomString len s
              = Ok str (advance_by (default 0%nat (for_count len)) s).
Proof.
  intros Hlen. unfold getRandomString.
  destruct (for_count len) as [n |] eqn:En.
  - apply getRandomString_loop_total.
  - destruct len as [| [|] | q]; try discriminate En. congruence.
Qed.

Lemma generateColumn_shape (i : nat) (config : ColumnConfig) (record : Row)
    (s : Rng) :
  well_formed config ->
  exists record',
    generateColumn i config record s = Ok record' (advance_by (draws_of config) s)
    /\ dom record' = key_of config ∪ dom record.
Proof.
  intros [Hlist Hlen].
  destruct (type_cases (cfg_type config))
    as [Ht | [Ht | [Ht | [Ht | [Ht | [Ht | [Ht | Ht]]]]]]].
  8: { exists record. rewrite unrecognized_column, draws_of_unrecognized by exact Ht.
       rewrite advance_by_0. split; [reflexivity |].
       unfold key_of. rewrite decide_False by (intros [Hr _]; exact (Ht Hr)).
       set_solver. }
  all: assert (Hkey : key_of config
                      = if decide (cfg_header config = "__proto__")
                        then ∅ else {[cfg_header config]})
    by (assert (Hrec : recognized (cfg_type config))
          by (apply recognized_in; rewrite Ht; simpl; auto 10);
        unfold key_of, stores;
        destruct (decide (cfg_header config = "__proto__")) as [Hp | Hp];
        [rewrite decide_False by (intros [_ Hn]; exact (Hn Hp)); reflexivity
        | rewrite decide_True by (split; assumption); reflexivity]);
    rewrite Hkey; unfold generateColumn, draws_of; rewrite Ht; cbn [bool_decide].
  - eexists. split; [rewrite <- advance_by_1; reflexivity | apply dom_assign].
  - destruct (cfg_list config) as [l |] eqn:El;
      [| exfalso; apply Hlist;
         [rewrite Ht; apply list_elem_of_In; simpl; auto | reflexivity]].
    eexists. split; [rewrite <- advance_by_1; reflexivity | apply dom_assign].
  - destruct (cfg_list config) as [l |] eqn:El;
      [| exfalso; apply Hlist;
         [rewrite Ht; apply list_elem_of_In; simpl; auto | reflexivity]].
    eexists. split; [rewrite <- advance_by_1; reflexivity | apply dom_assign].
  - destruct (string_column_shape (cfg_length config) s) as (str & Hstr);
      [apply Hlen; rewrite Ht; apply list_elem_of_In; simpl; auto |].
    eexists. split; [| apply dom_assign].
    simpl. unfold mbind, M_bind. rewrite Hstr. reflexivity.
  - eexists. split; [rewrite advance_by_0; reflexivity | apply dom_assign].
  - destruct (cfg_list config) as [l |] eqn:El;
      [| exfalso; apply Hlist;
         [rewrite Ht; apply list_elem_of_In; simpl; auto | reflexivity]].
    eexists. split; [rewrite advance_by_0; reflexivity | apply dom_assign].
  - destruct (string_column_shape (cfg_length config) s) as (str & Hstr);
      [apply Hlen; rewrite Ht; apply list_elem_of_In; simpl; auto |].
    eexists. split; [| apply dom_assign].
    simpl. unfold getRandomStringWithPrefix, mbind, M_bind. rewrite Hstr. reflexivity.
Qed.

Lemma generateRecord_shape (i : nat) (configs : list ColumnConfig) (record : Row)
    (s : Rng) :
  Forall well_formed configs ->
  exists record',
    generateRecord i configs record s
    = Ok record' (advance_by (draws_per_record configs) s)
    /\ dom record' = written_headers configs ∪ dom record.
Proof.
  intros Hwf. revert record s.
  induction Hwf as [| config configs Hc _ IH]; intros record s.
  - exists record. split; [cbn; rewrite advance_by_0; reflexivity |].
    unfold written_headers. cbn. set_solver.
  - destruct (generateColumn_shape i config record s Hc) as (r1 & Hr1 & Hd1).
    destruct (IH r1 (advance_by (draws_of config) s)) as (r2 & Hr2 & Hd2).
    exists r2. split.
    + cbn [generateRecord]. unfold mbind, M_bind at 1. rewrite Hr1, Hr2.
      rewrite advance_by_add. reflexivity.
    + rewrite Hd2, Hd1, written_headers_cons. set_solver.
Qed.

Lemma generateRows_shape (configs : list ColumnConfig) (n i : nat)
    (outputData : list Row) (s : Rng) :
  Forall well_formed configs ->
  exists rows,
    generateRows configs n i outputData s
    = Ok (outputData ++ rows) (advance_by (n * draws_per_record configs) s)
    /\ length rows = n
    /\ Forall (fun row => dom row = written_headers configs) rows.
Proof.
  intros Hwf. revert i outputData s.
  induction n as [| n IH]; intros i outputData s.
  - exists []. rewrite app_nil_r. cbn. rewrite advance_by_0.
    split; [reflexivity | split; [reflexivity | constructor]].
  - destruct (generateRecord_shape i configs ∅ s Hwf) as (r & Hr & Hd).
    destruct (IH (S i) (outputData ++ [r])
                 (advance_by (draws_per_record configs) s))
      as (rows & Hrows & Hlen & Hall).
    exists (r :: rows). split; [| split].
    + cbn [generateRows]. unfold mbind, M_bind at 1. rewrite Hr, Hrows.
      rewrite advance_by_add, <- app_assoc. reflexivity.
    + cbn. rewrite Hlen. reflexivity.
    + constructor; [| exact Hall]. rewrite Hd. set_solver.
Qed.

Lemma generateRows_add (configs : list ColumnConfig) (n m i : nat)
    (outputData : list Row) (s : Rng) :
  generateRows configs (n + m) i outputData s
  = match generateRows configs n i outputData s with
    | Ok rows s' => generateRows configs m (i + n) rows s'
    | Throw e => Throw e
    | Diverge => Diverge
    end.
Proof.
  revert i outputData s. induction n as [| n IH]; intros i outputData s.
  - cbn. rewrite Nat.add_0_r. reflexivity.
  - cbn [Nat.add generateRows]. unfold mbind, M_bind.
    destruct (generateRecord i configs ∅ s) as [r s1 | e |]; [| reflexivity..].
    rewrite IH. replace (S i + n)%nat with (i + S n)%nat by lia. reflexivity.
Qed.



(** X6: a longer run extends a shorter one: with the same configurations and
    the same random source, the first [n] records of a run of [n + m] rows are
    the records of the run of [n] rows. *)
Theorem generateData_prefix (configs : list ColumnConfig) (n m : nat) (s : Rng) :
  Forall well_formed configs ->
  exists rows more s1 s2,
    generateData configs (Num (of_nat n)) s = Ok rows s1
    /\ generateData configs (Num (of_nat (n + m))) s = Ok (rows ++ more) s2
    /\ length rows = n /\ length more = m.
Proof.
  intros Hwf. unfold generateData. rewrite !for_count_of_nat, generateRows_add.
  destruct (generateRows_shape configs n 0 [] s Hwf) as (rows & Hrun & Hlen & _).
  rewrite Hrun. cbn [app].
  destruct (generateRows_shape configs m (0 + n) rows
              (advance_by (n * draws_per_record configs) s) Hwf)
    as (more & Hmore & Hlen' & _).
  exists rows, more. do 2 eexists. split; [reflexivity |].
  split; [exact Hmore | split; [exact Hlen | exact Hlen']].
Qed.

Lemma generateData_prefix_witness :
  Forall well_formed [cyc_xy]
  /\ exists rows more s1 s2,
       generateData [cyc_xy] (Num (of_nat 2)) (rng0 half) = Ok rows s1
       /\ generateData [cyc_xy] (Num (of_nat (2 + 3))) (rng0 half)
          = Ok (rows ++ more) s2
       /\ length rows = 2%nat /\ length more = 3%nat.
Proof.
  assert (Hwf : Forall well_formed [cyc_xy])
    by (constructor; [exact well_formed_cyc_xy | constructor]).
  split; [exact Hwf |]. exact (generateData_prefix [cyc_xy] 2 3 (rng0 half) Hwf).
Defined.

(** ** The builder and the runs that use it *)

Lemma recognized_tag (g : GenerationType) : recognized (type_tag g).
Proof. apply recognized_in. destruct g; simpl; auto 10. Qed.

Lemma configureColumn_header_type (header : string) (records : list Row)
    (answers : Answers) :
  cfg_header (fst (configureColumn header records answers)) = header
  /\ cfg_type (fst (configureColumn header records answers))
     = type_tag (generationType answers).
Proof.
  unfold configureColumn.
  destruct (generationType answers); builder_cases answers; split; reflexivity.
Qed.

Lemma written_headers_all (configs : list ColumnConfig) :
  Forall (fun c => recognized (cfg_type c)) configs ->
  written_headers configs
  = list_to_set (filter (fun h => h <> "__proto__") (map cfg_header configs)).
Proof.
  intros Hall. unfold written_headers. f_equal.
  induction Hall as [| c cs Hc _ IH]; [reflexivity |].
  cbn [map]. rewrite !filter_cons.
  destruct (decide (cfg_header c <> "__proto__")) as [Hp | Hp].
  - rewrite decide_True by (split; assumption). cbn [map]. rewrite IH. reflexivity.
  - rewrite decide_False by (intros [_ Hn]; exact (Hp Hn)). exact IH.
Qed.

(** X7: in a run without template the builder is called once per header, and
    what it returns always carries that header and one of the seven types the
    row loop knows (the menu value '3-source' is stored as '3').  So, unless a
    string length of [+Infinity] was entered, the run returns [n] records and
    each of them has as keys exactly the headers other than [__proto__]: the
    row loop skips no column, and only the assignment to [__proto__] stores
    nothing. *)
Theorem fresh_run_shape (records : list Row) (headers : list (string * Answers))
    (n : nat) (s : Rng) :
  Forall (fun e => ans_length (snd e) <> Inf false) headers ->
  let configs := configureHeaders records headers in
  map cfg_header configs = map fst headers
  /\ map cfg_type configs = map (fun e => type_tag (generationType (snd e))) headers
  /\ Forall (fun c => recognized (cfg_type c)) configs
  /\ exists rows s',
       generateData configs (Num (of_nat n)) s = Ok rows s'
       /\ length rows = n
       /\ Forall (fun row =>
                   dom row
                   = list_to_set (filter (fun h => h <> "__proto__")
                                         (map fst headers))) rows.
Proof.
  intros Hlen configs.
  assert (Hh : map cfg_header configs = map fst headers).
  { unfold configs, configureHeaders. rewrite map_map. apply map_ext.
    intros e. apply configureColumn_header_type. }
  assert (Ht : map cfg_type configs
               = map (fun e => type_tag (generationType (snd e))) headers).
  { unfold configs, configureHeaders. rewrite map_map. apply map_ext.
    intros e. apply configureColumn_header_type. }
  assert (Hrec : Forall (fun c => recognized (cfg_type c)) configs).
  { unfold configs, configureHeaders. apply List.Forall_map.
    apply List.Forall_forall. intros e _.
    rewrite (proj2 (configureColumn_header_type _ _ _)). apply recognized_tag. }
  assert (Hwf : Forall well_formed configs).
  { unfold configs, configureHeaders. apply List.Forall_map.
    revert Hlen. apply List.Forall_impl. intros e He.
    apply configureColumn_well_formed. exact He. }
  split; [exact Hh | split; [exact Ht | split; [exact Hrec |]]].
  unfold generateData. rewrite for_count_of_nat.
  destruct (generateRows_shape configs n 0 [] s Hwf) as (rows & Hrun & Hl & Hall).
  exists rows. eexists. split; [exact Hrun | split; [exact Hl |]].
  rewrite written_headers_all, Hh in Hall by exact Hrec. exact Hall.
Qed.

Lemma fresh_run_shape_witness :
  Forall (fun e : string * Answers => ans_length (snd e) <> Inf false)
         [("c", alpha_answers FromSource true "")]
  /\ exists rows s',
       generateData (configureHeaders pool_example [("c", alpha_answers FromSource true "")])
                    (Num (of_nat 3)) (rng0 half) = Ok rows s'
       /\ length rows = 3%nat
       /\ Forall (fun row : Row =>
                   dom row
                   = list_to_set (filter (fun h => h <> "__proto__")
                                    (map fst [("c", alpha_answers FromSource true "")])))
                 rows.
Proof.
  assert (Hlen : Forall (fun e : string * Answers => ans_length (snd e) <> Inf false)
                        [("c", alpha_answers FromSource true "")])
    by (constructor; [discriminate | constructor]).
  split; [exact Hlen |].
  exact (proj2 (proj2 (proj2 (fresh_run_shape pool_example
                                [("c", alpha_answers FromSource true "")] 3
                                (rng0 half) Hlen)))).
Defined.

Lemma pool_member (records : list Row) (header : string) (v : value) :
  v ∈ getUniqueValuesFromColumn records header ->
  usable v /\ exists record, record ∈ records /\ get_field record header = v.
Proof.
  unfold getUniqueValuesFromColumn. rewrite list_elem_of_filter, Set_from_dedup.
  rewrite elem_of_dedup_first. intros [Hu Hin]. split; [exact Hu |].
  apply list_elem_of_In, in_map_iff in Hin. destruct Hin as (record & Hv & Hr).
  exists record. split; [apply list_elem_of_In; exact Hr | exact Hv].
Qed.

Lemma alpha_from_source_pool (c : ColumnConfig) (pool : list value)
    (answers : Answers) :
  pool <> [] -> fst (alpha_from_source c pool answers) = set_list c pool.
Proof.
  intros Hne. unfold alpha_from_source.
  rewrite bool_decide_eq_false_2; [reflexivity |].
  destruct pool; [congruence | discriminate].
Qed.

(** X8: when the column has usable values and the user takes them (the
    default "from source file" choice, or "from list" and "values from list"
    with the source values), the list of the configuration is the value pool,
    every entry of which is a non-empty cell of that column in some source
    record; the row loop then writes only such values: a random one for the
    alphanumeric choices, the one in turn for the cyclic choice. *)
Theorem source_values_only (header : string) (records : list Row)
    (answers : Answers) :
  let pool := getUniqueValuesFromColumn records header in
  let config := fst (configureColumn header records answers) in
  pool <> [] ->
  generationType answers = FromSource
  \/ ((generationType answers = AlphaFromList \/ generationType answers = CyclicList)
      /\ useSource answers = true) ->
  cfg_list config = Some pool
  /\ (forall v : value,
        v ∈ pool ->
        usable v /\ exists record, record ∈ records /\ get_field record header = v)
  /\ forall (i : nat) (record : Row) (s : Rng),
       valid_rng s ->
       exists v s',
         generateColumn i config record s = Ok (<[header := v]> record) s'
         /\ v ∈ pool.
Proof.
  intros pool config Hne Hchoice.
  assert (Hconfig : config = set_list (base_config header "3") pool
                    \/ config = set_list (base_config header "6") pool).
  { unfold config, configureColumn. fold pool.
    destruct Hchoice as [-> | [[-> | ->] ->]]; cbn [type_tag].
    - left. rewrite <- (alpha_from_source_pool (base_config header "3") pool answers Hne).
      destruct (alpha_from_source _ pool answers). reflexivity.
    - left. rewrite <- (alpha_from_source_pool (base_config header "3") pool answers Hne).
      destruct (alpha_from_source _ pool answers). reflexivity.
    - right. rewrite <- (alpha_from_source_pool (base_config header "6") pool answers Hne).
      destruct (alpha_from_source _ pool answers). reflexivity. }
  split; [destruct Hconfig as [-> | ->]; reflexivity |].
  split; [intros v Hv; apply pool_member; exact Hv |].
  intros i record s Hs. destruct Hconfig as [-> | ->].
  - destruct (random_pick pool s Hs Hne) as (v & Hrun & Hin).
    exists v, (advance s). split; [| exact Hin].
    rewrite list_column by (right; reflexivity).
    cbn [set_list cfg_list cfg_header base_config]. rewrite Hrun. reflexivity.
  - exists (nth (i mod length pool) pool VUndefined), s. split.
    + apply (cyclic_column (set_list (base_config header "6") pool) pool
               eq_refl eq_refl Hne).
    + apply list_elem_of_In, nth_In, Nat.mod_upper_bound.
      destruct pool; [congruence | discriminate].
Qed.

Lemma source_values_only_witness :
  getUniqueValuesFromColumn pool_example "c" <> []
  /\ cfg_list (fst (configureColumn "c" pool_example (alpha_answers FromSource true "")))
     = Some (getUniqueValuesFromColumn pool_example "c").
Proof.
  assert (Hne : getUniqueValuesFromColumn pool_example "c" <> [])
    by (vm_compute; discriminate).
  split; [exact Hne |].
  exact (proj1 (source_values_only "c" pool_example (alpha_answers FromSource true "")
                  Hne (or_introl eq_refl))).
Defined.

(** ** Typed lists *)

Lemma split_length (sep : ascii) (s : string) :
  length (split sep s) = S (count_char sep s).
Proof.
  induction s as [| c s IH]; [reflexivity |].
  cbn [split count_char]. destruct (bool_decide (c = sep)).
  - cbn [length]. rewrite IH. reflexivity.
  - destruct (split sep s) as [| h t]; [discriminate IH |].
    cbn [length] in *. rewrite IH. reflexivity.
Qed.





(** X9: a typed list of numbers is not validated.  When the user types the
    list (by choice, or because the column has no numeric value), the list of
    the configuration has one entry per piece between commas, each the result
    of [Number] on the piece; a piece that is not a number stays in the list
    as NaN. *)
Theorem typed_numbers_unvalidated (header : string) (records : list Row)
    (answers : Answers) :
  generationType answers = NumericFromList ->
  useSource answers = false
  \/ filter (fun n => isNaN n = false)
            (map Number (getUniqueValuesFromColumn records header)) = [] ->
  let pieces := split ","%char (numericList answers) in
  let config := fst (configureColumn header records answers) in
  cfg_list config = Some (map (fun piece => VNum (StringToNumber piece)) pieces)
  /\ (forall l, cfg_list config = Some l ->
                length l = S (count_char ","%char (numericList answers)))
  /\ (forall piece : string,
        piece ∈ pieces -> StringToNumber piece = NaN ->
        forall l, cfg_list config = Some l -> VNum NaN ∈ l).
Proof.
  intros Hg Hsrc pieces config.
  assert (Hl : cfg_list config
               = Some (map (fun piece => VNum (StringToNumber piece)) pieces)).
  { unfold config, configureColumn. rewrite Hg.
    change (fun val : value => Number val) with Number.
    destruct Hsrc as [-> | ->]; [reflexivity |].
    destruct (useSource answers); reflexivity. }
  split; [exact Hl | split].
  - intros l Hl'. rewrite Hl in Hl'. injection Hl' as <-.
    rewrite length_map. apply split_length.
  - intros piece Hin Hnan l Hl'. rewrite Hl in Hl'. injection Hl' as <-.
    apply list_elem_of_In, in_map_iff. exists piece.
    split; [rewrite Hnan; reflexivity | apply list_elem_of_In; exact Hin].
Qed.

Lemma typed_numbers_unvalidated_witness :
  generationType typed_answers = NumericFromList
  /\ useSource typed_answers = false
  /\ "x" ∈ split ","%char (numericList typed_answers)
  /\ StringToNumber "x" = NaN
  /\ cfg_list (fst (configureColumn "c" pool_example typed_answers))
     = Some [VNum (Num (of_Z 1)); VNum NaN; VNum (Num (of_Z 3))]
  /\ VNum NaN ∈ [VNum (Num (of_Z 1)); VNum NaN; VNum (Num (of_Z 3))].
Proof.
  assert (Hin : "x" ∈ split ","%char (numericList typed_answers))
    by (apply list_elem_of_In; right; left; reflexivity).
  assert (Hl : cfg_list (fst (configureColumn "c" pool_example typed_answers))
               = Some [VNum (Num (of_Z 1)); VNum NaN; VNum (Num (of_Z 3))])
    by reflexivity.
  split; [reflexivity | split; [reflexivity | split; [exact Hin |]]].
  split; [reflexivity | split; [exact Hl |]].
  exact (proj2 (proj2 (typed_numbers_unvalidated "c" pool_example typed_answers
                         eq_refl (or_introl eq_refl))) "x" Hin eq_refl _ Hl).
Defined.



(** ** The template store *)

Lemma findIndex_none {A : Type} (p : A -> bool) (l : list A) :
  Forall (fun x => p x = false) l -> findIndex p l = -1.
Proof.
  induction 1 as [| x l Hx _ IH]; [reflexivity |].
  cbn [findIndex]. rewrite Hx, IH. reflexivity.
Qed.

Lemma findIndex_first {A : Type} (p : A -> bool) (pre : list A) (x : A)
    (post : list A) :
  Forall (fun y => p y = false) pre -> p x = true ->
  findIndex p (pre ++ x :: post) = Z.of_nat (length pre).
Proof.
  intros Hpre Hx. induction Hpre as [| y pre Hy _ IH].
  - cbn. rewrite Hx. reflexivity.
  - cbn [app findIndex length]. rewrite Hy, IH.
    rewrite bool_decide_eq_true_2 by lia. lia.
Qed.

Lemma first_match {A : Type} (p : A -> bool) (l : list A) :
  Forall (fun x => p x = false) l
  \/ exists pre x post,
       l = pre ++ x :: post /\ Forall (fun y => p y = false) pre /\ p x = true.
Proof.
  induction l as [| a l IH]; [left; constructor |].
  destruct (p a) eqn:Ha.
  - right. exists [], a, l. split; [reflexivity | split; [constructor | exact Ha]].
  - destruct IH as [IH | (pre & x & post & -> & Hpre & Hx)].
    + left. constructor; assumption.
    + right. exists (a :: pre), x, post.
      split; [reflexivity | split; [constructor; assumption | exact Hx]].
Qed.

Section Save.
Variables (name' sourceFile' : string) (columnConfigurations' : list ColumnConfig).
Variables (numRecords' : number) (includeHeader' : bool) (now : string).
Variables (file : ConfigFile) (write_error : option string).

Local Abbreviation newTemplate :=
  (new_template name' sourceFile' columnConfigurations' numRecords'
                includeHeader' now).
Local Abbreviation saved :=
  (saveConfiguration name' sourceFile' columnConfigurations' numRecords'
                     includeHeader' now file write_error).
Local Abbreviation other_name := (other_name name').

Lemma save_append (ts : list SavedTemplate) :
  templates (fst (loadConfigurations file)) = Some ts ->
  Forall other_name ts ->
  snd (fst saved) = Some {| templates := Some (ts ++ [newTemplate]) |}.
Proof.
  intros Hload Hother. unfold saved, saveConfiguration.
  destruct (loadConfigurations file) as [config loaded]. cbn [fst] in Hload.
  rewrite Hload. rewrite findIndex_none.
  - destruct write_error; reflexivity.
  - revert Hother. apply List.Forall_impl. intros t Ht.
    apply bool_decide_eq_false_2. exact Ht.
Qed.

Lemma save_replace (pre : list SavedTemplate) (old : SavedTemplate)
    (post : list SavedTemplate) :
  templates (fst (loadConfigurations file)) = Some (pre ++ old :: post) ->
  Forall other_name pre -> name (template old) = name' ->
  snd (fst saved) = Some {| templates := Some (pre ++ newTemplate :: post) |}.
Proof.
  intros Hload Hother Hold. unfold saved, saveConfiguration.
  destruct (loadConfigurations file) as [config loaded]. cbn [fst] in Hload.
  rewrite Hload. rewrite findIndex_first.
  - rewrite bool_decide_eq_true_2 by lia. rewrite Nat2Z.id.
    replace (length pre) with (length pre + 0)%nat by lia.
    rewrite insert_app_r. destruct write_error; reflexivity.
  - revert Hother. apply List.Forall_impl. intros t Ht.
    apply bool_decide_eq_false_2. exact Ht.
  - apply bool_decide_eq_true_2. exact Hold.
Qed.

Lemma save_cases (ts : list SavedTemplate) :
  Forall other_name ts
  \/ exists pre old post,
       ts = pre ++ old :: post /\ Forall other_name pre
       /\ name (template old) = name'.
Proof.
  destruct (first_match (fun t => bool_decide (name (template t) = name')) ts)
    as [H | (pre & old & post & -> & Hpre & Hold)].
  - left. revert H. apply List.Forall_impl. intros t Ht.
    apply bool_decide_eq_false in Ht. exact Ht.
  - right. exists pre, old, post. split; [reflexivity | split].
    + revert Hpre. apply List.Forall_impl. intros t Ht.
      apply bool_decide_eq_false in Ht. exact Ht.
    + apply bool_decide_eq_true in Hold. exact Hold.
Qed.
End Save.

Lemma find_first {A : Type} (p : A -> bool) (pre : list A) (x : A) (post : list A) :
  Forall (fun y => p y = false) pre -> p x = true ->
  List.find p (pre ++ x :: post) = Some x.
Proof.
  intros Hpre Hx. induction Hpre as [| y pre Hy _ IH]; cbn.
  - rewrite Hx. reflexivity.
  - rewrite Hy. exact IH.
Qed.

Lemma find_skip {A : Type} (p : A -> bool) (pre : list A) (x y : A) (post : list A) :
  p x = false -> p y = false ->
  List.find p (pre ++ x :: post) = List.find p (pre ++ y :: post).
Proof.
  intros Hx Hy. induction pre as [| a pre IH]; cbn.
  - rewrite Hx, Hy. reflexivity.
  - destruct (p a); [reflexivity | exact IH].
Qed.

Lemma find_app_none {A : Type} (p : A -> bool) (l : list A) (x : A) :
  p x = false -> List.find p (l ++ [x]) = List.find p l.
Proof.
  intros Hx. induction l as [| a l IH]; cbn.
  - rewrite Hx. reflexivity.
  - destruct (p a); [reflexivity | exact IH].
Qed.

Section SaveProperties.
Variables (name' sourceFile' : string) (columnConfigurations' : list ColumnConfig).
Variables (numRecords' : number) (includeHeader' : bool) (now : string).
Variables (file : ConfigFile) (write_error : option string).

Local Abbreviation newTemplate :=
  (new_template name' sourceFile' columnConfigurations' numRecords'
                includeHeader' now).
Local Abbreviation saved :=
  (saveConfiguration name' sourceFile' columnConfigurations' numRecords'
                     includeHeader' now file write_error).

(** X11: [saveConfiguration] returns [true] exactly when the stored object
    has a [templates] list and the write does not throw.  Without a
    [templates] property it writes nothing and reports the TypeError; a file
    that is missing counts as an empty list, and one that cannot be read or
    parsed is reported and then treated the same: the document written holds
    the new template alone, so what the unreadable file held is replaced. *)
Theorem saveConfiguration_result :
  (fst (fst saved) = true
   <-> templates (fst (loadConfigurations file)) <> None /\ write_error = None)
  /\ (templates (fst (loadConfigurations file)) = None ->
      snd (fst saved) = None
      /\ snd saved
         = [ConsoleError ["Error saving configuration:";
              "Cannot read properties of undefined (reading 'findIndex')"]])
  /\ (file = FileMissing \/ (exists message, file = FileUnreadable message) ->
      snd (fst saved) = Some {| templates := Some [newTemplate] |})
  /\ (forall message, file = FileUnreadable message ->
      snd (loadConfigurations file)
      = [ConsoleError ["Error loading configurations:"; message]]).
Proof.
  split; [| split; [| split]].
  - unfold saveConfiguration. destruct (loadConfigurations file) as [config loaded].
    cbn [fst]. destruct (templates config) as [ts |]; destruct write_error;
      cbn [fst]; split; intros H; try discriminate; try (destruct H; congruence);
      split; congruence.
  - intros Hnone. unfold saveConfiguration.
    destruct file as [| message | config]; cbn in Hnone; try discriminate.
    cbn [loadConfigurations]. rewrite Hnone. split; reflexivity.
  - intros [-> | [message ->]]; unfold saveConfiguration; cbn;
      destruct write_error; reflexivity.
  - intros message ->. reflexivity.
Qed.

(** X12: the new template replaces, in place, the first stored template of
    the same name and leaves every other entry where it was; when no stored
    template has that name it is appended at the end. *)
Theorem saveConfiguration_upsert (ts : list SavedTemplate) :
  templates (fst (loadConfigurations file)) = Some ts ->
  (Forall (other_name name') ts ->
   snd (fst saved) = Some {| templates := Some (ts ++ [newTemplate]) |})
  /\ (forall pre old post,
        ts = pre ++ old :: post -> Forall (other_name name') pre ->
        name (template old) = name' ->
        snd (fst saved) = Some {| templates := Some (pre ++ newTemplate :: post) |}).
Proof.
  intros Hload. split.
  - intros Hother. apply save_append; assumption.
  - intros pre old post -> Hpre Hold. apply save_replace with (old := old); assumption.
Qed.

(** X13: saving keeps the names of the store in order: every name stored
    before is still stored, the saved name is stored, the number of entries
    grows by one or stays, and if no two stored templates shared a name then
    none do afterwards. *)
Theorem saveConfiguration_names (ts : list SavedTemplate) :
  templates (fst (loadConfigurations file)) = Some ts ->
  exists ts',
    snd (fst saved) = Some {| templates := Some ts' |}
    /\ newTemplate ∈ ts'
    /\ (forall n : string, n ∈ template_names ts' <-> n = name' \/ n ∈ template_names ts)
    /\ (length ts <= length ts' <= S (length ts))%nat
    /\ (NoDup (template_names ts) -> NoDup (template_names ts')).
Proof.
  intros Hload.
  destruct (save_cases name' ts) as [Hother | (pre & old & post & -> & Hpre & Hold)].
  - exists (ts ++ [newTemplate]). split; [apply save_append; assumption |].
    unfold template_names. rewrite map_app, length_app. cbn [map length].
    split; [apply elem_of_app; right; apply list_elem_of_singleton; reflexivity |].
    split; [| split; [lia |]].
    + intros n. rewrite elem_of_app, list_elem_of_singleton. tauto.
    + intros Hnd. apply NoDup_app. split; [exact Hnd | split; [| apply NoDup_singleton]].
      intros n Hn Hin. apply list_elem_of_singleton in Hin. subst n.
      apply list_elem_of_In, in_map_iff in Hn. destruct Hn as (t & Ht & Hin).
      rewrite List.Forall_forall in Hother. exact (Hother t Hin Ht).
  - exists (pre ++ newTemplate :: post). split; [apply save_replace with (old := old); assumption |].
    unfold template_names. rewrite !map_app, !length_app. cbn [map length name template new_template].
    rewrite Hold.
    split; [apply elem_of_app; right; apply elem_of_cons; left; reflexivity |].
    split; [| split; [lia | intros Hnd; exact Hnd]].
    intros n. rewrite !elem_of_app, !elem_of_cons. tauto.
Qed.

(** X14: a saved template is the one the menu gives back: in the document
    written, choosing the saved name selects the new template, unless that
    name is [new], the value of the menu entry "Create new configuration",
    which always starts a new configuration; looking up any other name finds
    what it found before. *)
Theorem saved_template_chosen (ts : list SavedTemplate) :
  templates (fst (loadConfigurations file)) = Some ts ->
  exists ts',
    snd (fst saved) = Some {| templates := Some ts' |}
    /\ (name' <> "new" ->
        chooseTemplate {| templates := Some ts' |} name' = UseTemplate newTemplate)
    /\ chooseTemplate {| templates := Some ts' |} "new" = NewConfiguration
    /\ (forall n : string,
          n <> name' ->
          List.find (fun t => bool_decide (name (template t) = n)) ts'
          = List.find (fun t => bool_decide (name (template t) = n)) ts).
Proof.
  intros Hload.
  assert (Hnew : forall ts', chooseTemplate {| templates := Some ts' |} "new"
                             = NewConfiguration).
  { intros [| t ts']; [reflexivity |]. unfold chooseTemplate. cbn [templates].
    rewrite bool_decide_eq_false_2 by (intros H; apply H; reflexivity). reflexivity. }
  destruct (save_cases name' ts) as [Hother | (pre & old & post & -> & Hpre & Hold)].
  - exists (ts ++ [newTemplate]). split; [apply save_append; assumption |].
    split; [| split; [apply Hnew |]].
    + intros Hn. unfold chooseTemplate. cbn [templates].
      destruct (ts ++ [newTemplate]) as [| t0 l0] eqn:E;
        [destruct ts; discriminate E |]. rewrite <- E.
      rewrite bool_decide_eq_true_2 by exact Hn.
      change (ts ++ [newTemplate]) with (ts ++ newTemplate :: []).
      rewrite find_first; [reflexivity | | apply bool_decide_eq_true_2; reflexivity].
      revert Hother. apply List.Forall_impl. intros t Ht.
      apply bool_decide_eq_false_2. exact Ht.
    + intros n Hn. apply find_app_none. apply bool_decide_eq_false_2.
      cbn. congruence.
  - exists (pre ++ newTemplate :: post). split; [apply save_replace with (old := old); assumption |].
    split; [| split; [apply Hnew |]].
    + intros Hn. unfold chooseTemplate. cbn [templates].
      destruct (pre ++ newTemplate :: post) as [| t0 l0] eqn:E;
        [destruct pre; discriminate E |]. rewrite <- E.
      rewrite bool_decide_eq_true_2 by exact Hn.
      rewrite find_first; [reflexivity | | apply bool_decide_eq_true_2; reflexivity].
      revert Hpre. apply List.Forall_impl. intros t Ht.
      apply bool_decide_eq_false_2. exact Ht.
    + intros n Hn. apply find_skip; apply bool_decide_eq_false_2; cbn; congruence.
Qed.
End SaveProperties.

Lemma saveConfiguration_result_witness :
  (FileMissing = FileMissing \/ exists message, FileMissing = FileUnreadable message)
  /\ snd (fst (saveConfiguration "a" "s.csv" [cyc_xy] (Num (of_Z 5)) true "t"
                 FileMissing None))
     = Some {| templates :=
                 Some [new_template "a" "s.csv" [cyc_xy] (Num (of_Z 5)) true "t"] |}
  /\ templates (fst (loadConfigurations (FileParsed {| templates := None |}))) = None
  /\ snd (fst (saveConfiguration "a" "s.csv" [cyc_xy] (Num (of_Z 5)) true "t"
                 (FileParsed {| templates := None |}) None)) = None.
Proof.
  assert (Hm : FileMissing = FileMissing
               \/ exists message, FileMissing = FileUnreadable message)
    by (left; reflexivity).
  assert (Hn : templates (fst (loadConfigurations (FileParsed {| templates := None |})))
               = None) by reflexivity.
  split; [exact Hm |].
  split; [exact (proj1 (proj2 (proj2 (saveConfiguration_result "a" "s.csv" [cyc_xy]
                  (Num (of_Z 5)) true "t" FileMissing None))) Hm) |].
  split; [exact Hn |].
  exact (proj1 (proj1 (proj2 (saveConfiguration_result "a" "s.csv" [cyc_xy]
           (Num (of_Z 5)) true "t" (FileParsed {| templates := None |}) None)) Hn)).
Defined.

Lemma saveConfiguration_upsert_witness :
  templates (fst (loadConfigurations sample_store))
  = Some ([] ++ sample_template "a" 10 :: [sample_template "b" 20])
  /\ Forall (other_name "a") []
  /\ name (template (sample_template "a" 10)) = "a"
  /\ snd (fst (saveConfiguration "a" "s.csv" [cyc_xy] (Num (of_Z 5)) true "t"
                 sample_store None))
     = Some {| templates :=
                 Some ([] ++ new_template "a" "s.csv" [cyc_xy] (Num (of_Z 5)) true "t"
                          :: [sample_template "b" 20]) |}.
Proof.
  assert (Hload : templates (fst (loadConfigurations sample_store))
                  = Some ([] ++ sample_template "a" 10 :: [sample_template "b" 20]))
    by reflexivity.
  assert (Hpre : Forall (other_name "a") []) by constructor.
  split; [exact Hload | split; [exact Hpre | split; [reflexivity |]]].
  exact (proj2 (saveConfiguration_upsert "a" "s.csv" [cyc_xy] (Num (of_Z 5)) true "t"
                  sample_store None _ Hload)
           [] (sample_template "a" 10) [sample_template "b" 20] eq_refl Hpre eq_refl).
Defined.

Lemma saveConfiguration_names_witness :
  templates (fst (loadConfigurations sample_store))
  = Some [sample_template "a" 10; sample_template "b" 20]
  /\ exists ts',
       snd (fst (saveConfiguration "c" "s.csv" [cyc_xy] (Num (of_Z 5)) true "t"
                   sample_store None)) = Some {| templates := Some ts' |}
       /\ (2 <= length ts' <= 3)%nat.
Proof.
  split; [reflexivity |].
  destruct (saveConfiguration_names "c" "s.csv" [cyc_xy] (Num (of_Z 5)) true "t"
              sample_store None _ eq_refl) as (ts' & Hw & _ & _ & Hlen & _).
  exists ts'. split; [exact Hw | exact Hlen].
Defined.

Lemma saved_template_chosen_witness :
  templates (fst (loadConfigurations sample_store))
  = Some [sample_template "a" 10; sample_template "b" 20]
  /\ "b" <> "new"
  /\ exists ts',
       snd (fst (saveConfiguration "b" "s.csv" [cyc_xy] (Num (of_Z 5)) true "t"
                   sample_store None)) = Some {| templates := Some ts' |}
       /\ chooseTemplate {| templates := Some ts' |} "b"
          = UseTemplate (new_template "b" "s.csv" [cyc_xy] (Num (of_Z 5)) true "t").
Proof.
  assert (Hn : "b" <> "new") by discriminate.
  split; [reflexivity | split; [exact Hn |]].
  destruct (saved_template_chosen "b" "s.csv" [cyc_xy] (Num (of_Z 5)) true "t"
              sample_store None _ eq_refl) as (ts' & Hw & Hc & _).
  exists ts'. split; [exact Hw | exact (Hc Hn)].
Defined.

(** ** Editing the columns of a template *)

Lemma editColumn_absent (records : list Row) (header : string) (answers : Answers)
    (cs : list ColumnConfig) :
  Forall (fun c => cfg_header c <> header) cs ->
  editColumn records header answers cs
  = cs ++ [fst (configureColumn header records answers)].
Proof.
  intros Habs. unfold editColumn. rewrite findIndex_none; [reflexivity |].
  revert Habs. apply List.Forall_impl. intros c Hc.
  apply bool_decide_eq_false_2. exact Hc.
Qed.

Lemma editColumn_present (records : list Row) (header : string) (answers : Answers)
    (pre : list ColumnConfig) (old : ColumnConfig) (post : list ColumnConfig) :
  Forall (fun c => cfg_header c <> header) pre -> cfg_header old = header ->
  editColumn records header answers (pre ++ old :: post)
  = pre ++ post ++ [fst (configureColumn header records answers)].
Proof.
  intros Hpre Hold. unfold editColumn. rewrite findIndex_first.
  - rewrite bool_decide_eq_true_2 by lia. rewrite Nat2Z.id, delete_middle.
    rewrite <- app_assoc. reflexivity.
  - revert Hpre. apply List.Forall_impl. intros c Hc.
    apply bool_decide_eq_false_2. exact Hc.
  - apply bool_decide_eq_true_2. exact Hold.
Qed.

Lemma header_cases (header : string) (cs : list ColumnConfig) :
  Forall (fun c => cfg_header c <> header) cs
  \/ exists pre old post,
       cs = pre ++ old :: post /\ Forall (fun c => cfg_header c <> header) pre
       /\ cfg_header old = header.
Proof.
  destruct (first_match (fun c => bool_decide (cfg_header c = header)) cs)
    as [H | (pre & old & post & -> & Hpre & Hold)].
  - left. revert H. apply List.Forall_impl. intros c Hc.
    apply bool_decide_eq_false in Hc. exact Hc.
  - right. exists pre, old, post. split; [reflexivity | split].
    + revert Hpre. apply List.Forall_impl. intros c Hc.
      apply bool_decide_eq_false in Hc. exact Hc.
    + apply bool_decide_eq_true in Hold. exact Hold.
Qed.

(** X15: editing a column of a template moves it to the end of the column
    order: the first configuration with that header is removed, the others
    keep their order, and the configuration the builder returns is appended;
    a header the template does not have is simply added at the end. *)
Theorem editColumn_moves_last (records : list Row) (header : string)
    (answers : Answers) (cs : list ColumnConfig) :
  let new := fst (configureColumn header records answers) in
  cfg_header new = header
  /\ last (editColumn records header answers cs) = Some new
  /\ (Forall (fun c => cfg_header c <> header) cs ->
      editColumn records header answers cs = cs ++ [new])
  /\ (forall pre old post,
        cs = pre ++ old :: post ->
        Forall (fun c => cfg_header c <> header) pre -> cfg_header old = header ->
        editColumn records header answers cs = pre ++ post ++ [new]).
Proof.
  intros new. split; [apply configureColumn_header_type |].
  split; [unfold editColumn; apply last_snoc |].
  split; [apply editColumn_absent |].
  intros pre old post -> Hpre Hold. apply editColumn_present; assumption.
Qed.

Lemma editColumn_moves_last_witness :
  [cyc_xy; seq_cfg] = [] ++ cyc_xy :: [seq_cfg]
  /\ Forall (fun c => cfg_header c <> "c") []
  /\ cfg_header cyc_xy = "c"
  /\ editColumn pool_example "c" (alpha_answers FromSource true "") [cyc_xy; seq_cfg]
     = [] ++ [seq_cfg]
       ++ [fst (configureColumn "c" pool_example (alpha_answers FromSource true ""))].
Proof.
  assert (Hpre : Forall (fun c => cfg_header c <> "c") []) by constructor.
  split; [reflexivity | split; [exact Hpre | split; [reflexivity |]]].
  exact (proj2 (proj2 (proj2 (editColumn_moves_last pool_example "c"
                                (alpha_answers FromSource true "") [cyc_xy; seq_cfg])))
           [] cyc_xy [seq_cfg] eq_refl Hpre eq_refl).
Defined.

Lemma editColumn_permutation (records : list Row) (header : string)
    (answers : Answers) (cs : list ColumnConfig) :
  let new := fst (configureColumn header records answers) in
  editColumn records header answers cs = cs ++ [new]
     /\ Forall (fun c => cfg_header c <> header) cs
  \/ exists old, cfg_header old = header
                 /\ old :: editColumn records header answers cs ≡ₚ new :: cs.
Proof.
  intros new. destruct (header_cases header cs)
    as [Habs | (pre & old & post & -> & Hpre & Hold)].
  - left. split; [apply editColumn_absent; exact Habs | exact Habs].
  - right. exists old. split; [exact Hold |].
    rewrite editColumn_present by assumption. fold new.
    rewrite (Permutation_app_comm post [new]). cbn [app].
    rewrite <- !Permutation_middle. apply perm_swap.
Qed.

Lemma editColumn_headers (records : list Row) (header : string) (answers : Answers)
    (cs : list ColumnConfig) :
  (forall h : string,
      h ∈ map cfg_header (editColumn records header answers cs)
      <-> h = header \/ h ∈ map cfg_header cs)
  /\ (NoDup (map cfg_header cs) ->
      NoDup (map cfg_header (editColumn records header answers cs)))
  /\ (Forall (fun c => recognized (cfg_type c)) cs ->
      Forall (fun c => recognized (cfg_type c)) (editColumn records header answers cs)).
Proof.
  pose proof (proj1 (configureColumn_header_type header records answers)) as Hnew.
  pose proof (proj2 (configureColumn_header_type header records answers)) as Htype.
  destruct (editColumn_permutation records header answers cs)
    as [[-> Habs] | (old & Hold & Hperm)].
  - rewrite map_app. cbn [map]. rewrite Hnew. split; [| split].
    + intros h. rewrite elem_of_app, list_elem_of_singleton. tauto.
    + intros Hnd. apply NoDup_app.
      split; [exact Hnd | split; [| apply NoDup_singleton]].
      intros h Hh Hin. apply list_elem_of_singleton in Hin. subst h.
      apply list_elem_of_In, in_map_iff in Hh. destruct Hh as (c & Hc & Hin).
      rewrite List.Forall_forall in Habs. exact (Habs c Hin Hc).
    + intros Hall. apply Forall_app. split; [exact Hall |].
      constructor; [| constructor]. rewrite Htype. apply recognized_tag.
  - assert (Hp : header :: map cfg_header (editColumn records header answers cs)
                 ≡ₚ header :: map cfg_header cs).
    { apply (Permutation_map cfg_header) in Hperm. cbn [map] in Hperm.
      rewrite Hold, Hnew in Hperm. exact Hperm. }
    apply Permutation_cons_inv in Hp. split; [| split].
    + intros h. rewrite Hp. split; [tauto |].
      intros [-> | Hin]; [| exact Hin].
      rewrite <- Hp. unfold editColumn. rewrite map_app. cbn [map].
      rewrite Hnew. apply elem_of_app. right. apply list_elem_of_singleton. reflexivity.
    + intros Hnd. rewrite Hp. exact Hnd.
    + intros Hall.
      assert (Hall' : Forall (fun c => recognized (cfg_type c))
                        (fst (configureColumn header records answers) :: cs)).
      { constructor; [rewrite Htype; apply recognized_tag | exact Hall]. }
      rewrite <- Hperm in Hall'. inversion Hall'; assumption.
Qed.

(** X16: after the editing loop the configurations cover the headers the
    template had and the edited ones, nothing else; headers that were
    distinct stay distinct, so an edit never leaves two configurations for
    one column; and every configuration still has a type the row loop
    knows, if that was so before. *)
Theorem editColumns_headers (records : list Row)
    (columnsToEdit : list (string * Answers)) (cs : list ColumnConfig) :
  let result := editColumns records columnsToEdit cs in
  (forall h : string,
      h ∈ map cfg_header result
      <-> h ∈ map cfg_header cs \/ h ∈ map fst columnsToEdit)
  /\ (NoDup (map cfg_header cs) -> NoDup (map cfg_header result))
  /\ (Forall (fun c => recognized (cfg_type c)) cs ->
      Forall (fun c => recognized (cfg_type c)) result).
Proof.
  unfold editColumns. revert cs.
  induction columnsToEdit as [| [header answers] edits IH]; intros cs.
  - cbn. split; [| split; trivial].
    intros h. split; [tauto |]. intros [H | H]; [exact H |]. inversion H.
  - cbn [fold_left fst snd map].
    destruct (IH (editColumn records header answers cs)) as (Hmem & Hnd & Hrec).
    destruct (editColumn_headers records header answers cs) as (Hmem1 & Hnd1 & Hrec1).
    split; [| split].
    + intros h. rewrite Hmem, Hmem1, elem_of_cons. tauto.
    + intros H. apply Hnd, Hnd1, H.
    + intros H. apply Hrec, Hrec1, H.
Qed.

Lemma editColumns_headers_witness :
  NoDup (map cfg_header [cyc_xy; seq_cfg])
  /\ NoDup (map cfg_header
              (editColumns pool_example [("c", alpha_answers FromSource true "")]
                           [cyc_xy; seq_cfg])).
Proof.
  assert (Hnd : NoDup (map cfg_header [cyc_xy; seq_cfg])).
  { cbn. constructor; [| constructor; [| constructor]].
    - intros H. apply list_elem_of_In in H. destruct H as [H | []]. discriminate H.
    - intros H. inversion H. }
  split; [exact Hnd |].
  exact (proj1 (proj2 (editColumns_headers pool_example
                         [("c", alpha_answers FromSource true "")] [cyc_xy; seq_cfg]))
           Hnd).
Defined.

(** ** The template menu *)

(** X17: whatever entry of the template menu is chosen, [main] finds what it
    needs: the entry "Create new configuration" starts a new configuration,
    and any other entry selects a stored template of that name, the first one
    if several share it; the lookup never comes back empty.  A stored template
    named [new] is therefore shown in the menu but cannot be selected. *)
Theorem chooseTemplate_from_menu (ts : list SavedTemplate) (choice : string) :
  choice ∈ template_choices ts ->
  (choice = "new" -> chooseTemplate {| templates := Some ts |} choice = NewConfiguration)
  /\ (choice <> "new" ->
      exists pre t post,
        ts = pre ++ t :: post /\ name (template t) = choice
        /\ Forall (other_name choice) pre
        /\ chooseTemplate {| templates := Some ts |} choice = UseTemplate t).
Proof.
  intros Hin. split.
  - intros ->. unfold chooseTemplate. cbn [templates]. destruct ts; [reflexivity |].
    rewrite bool_decide_eq_false_2 by (intros H; apply H; reflexivity). reflexivity.
  - intros Hn. unfold template_choices in Hin. apply elem_of_cons in Hin.
    destruct Hin as [Hin | Hin]; [congruence |].
    destruct (save_cases choice ts) as [Hother | (pre & t & post & -> & Hpre & Ht)].
    + exfalso. apply list_elem_of_In, in_map_iff in Hin.
      destruct Hin as (t & Ht & Hin). rewrite List.Forall_forall in Hother.
      exact (Hother t Hin Ht).
    + exists pre, t, post. split; [reflexivity | split; [exact Ht | split; [exact Hpre |]]].
      unfold chooseTemplate. cbn [templates].
      destruct (pre ++ t :: post) as [| t0 l0] eqn:E; [destruct pre; discriminate E |].
      rewrite <- E. rewrite bool_decide_eq_true_2 by exact Hn.
      rewrite find_first; [reflexivity | | apply bool_decide_eq_true_2; exact Ht].
      revert Hpre. apply List.Forall_impl. intros u Hu.
      apply bool_decide_eq_false_2. exact Hu.
Qed.

Lemma chooseTemplate_from_menu_witness :
  "b" ∈ template_choices [sample_template "a" 10; sample_template "b" 20]
  /\ "b" <> "new"
  /\ exists pre t post,
       [sample_template "a" 10; sample_template "b" 20] = pre ++ t :: post
       /\ name (template t) = "b"
       /\ Forall (other_name "b") pre
       /\ chooseTemplate
            {| templates := Some [sample_template "a" 10; sample_template "b" 20] |} "b"
          = UseTemplate t.
Proof.
  assert (Hin : "b" ∈ template_choices [sample_template "a" 10; sample_template "b" 20])
    by (apply list_elem_of_In; right; right; left; reflexivity).
  assert (Hn : "b" <> "new") by discriminate.
  split; [exact Hin | split; [exact Hn |]].
  exact (proj2 (chooseTemplate_from_menu _ "b" Hin) Hn).
Defined.
